(** * flytekit: local task cache and agent executor mixin

    A shallow embedding of [flytekit/core/local_cache.py] and
    [flytekit/extend/backend/mixins.py], with the properties of the
    fingerprinting, the cache store and the remote task lifecycle. *)

From stdpp Require Import gmap strings list fin_maps sorting pretty.
From Stdlib Require Import ZArith Lia.

Set Warnings "-register-all".
Set Default Proof Using "Type*".

(** ** Python dictionaries

    A [dict] keeps its items in insertion order; assigning to a key that is
    present replaces the value in place, assigning to a new key appends. *)

Abbreviation dict V := (list (string * V)).

Fixpoint dict_get {V} (d : dict V) (key : string) : option V :=
  match d with
  | [] => None
  | (k, v) :: rest => if decide (k = key) then Some v else dict_get rest key
  end.

Fixpoint dict_set {V} (d : dict V) (key : string) (v : V) : dict V :=
  match d with
  | [] => [(key, v)]
  | (k, w) :: rest =>
      if decide (k = key) then (k, v) :: rest else (k, w) :: dict_set rest key v
  end.

(** ** Objects reached by the hasher

    [Message] is a protobuf message other than [Struct]: the pickler sees it
    through its own reduction, as a type name and serialized bytes. *)

Record Message := mkMessage { message_type : string; message_bytes : string }.

Inductive PyObj :=
| PyNone
| PyStr (s : string)
| PyType (qualname : string)
| PyMessage (m : Message)
| PyStruct (fields : dict Message)
| PyList (items : list PyObj)
| PyDict (items : dict PyObj)
| PyObject (cls : string) (state : dict PyObj).

(** Modelled from the spec: the Structured Value of the data model, as the
    class [flytekit.models.literals.Literal] that [local_cache.py] imports:
    the attributes [scalar], [collection], [map], [hash] and [metadata], each
    of them [None] unless set.  [LiteralCollection] and [LiteralMap] only wrap
    their [literals] and are kept as the wrapped list and dictionary. *)
Inductive Literal := mkLiteral {
  Literal_scalar : option PyObj;
  Literal_collection : option (list Literal);
  Literal_map : option (dict Literal);
  Literal_hash : option string;
  Literal_metadata : option (dict string)
}.

Abbreviation LiteralMap := (dict Literal).

(** The three constructor calls of [_recursive_hash_placement]. *)
Definition Literal_of_collection (literals : list Literal) : Literal :=
  mkLiteral None (Some literals) None None None.
Definition Literal_of_map (literals : dict Literal) : Literal :=
  mkLiteral None None (Some literals) None None.
Definition Literal_of_hash (h : string) : Literal :=
  mkLiteral None None None (Some h) None.

(** ** [_recursive_hash_placement] (local_cache.py, lines 14-28) *)

Fixpoint _recursive_hash_placement (literal : Literal) : Literal :=
  match literal with
  | mkLiteral _ (Some literals) _ _ _ =>
      Literal_of_collection (List.map _recursive_hash_placement literals)
  | mkLiteral _ None (Some m) _ _ =>
      Literal_of_map
        ((fix items (kvs : dict Literal) (literal_map : dict Literal) :=
            match kvs with
            | [] => literal_map
            | (key, literal) :: rest =>
                items rest (dict_set literal_map key (_recursive_hash_placement literal))
            end) m [])
  | mkLiteral _ None None (Some h) _ => Literal_of_hash h
  | mkLiteral _ None None None _ => literal
  end.

(** The object graph of a [Literal] as the pickler walks it: an instance is
    reduced to its class and its attribute dictionary. *)
Fixpoint py_of_literal (l : Literal) : PyObj :=
  match l with
  | mkLiteral s c m h md =>
      PyObject "flytekit.models.literals.Literal"
        [("_scalar", default PyNone s);
         ("_collection",
          match c with
          | None => PyNone
          | Some literals =>
              PyObject "flytekit.models.literals.LiteralCollection"
                [("_literals", PyList (List.map py_of_literal literals))]
          end);
         ("_map",
          match m with
          | None => PyNone
          | Some literals =>
              PyObject "flytekit.models.literals.LiteralMap"
                [("_literals",
                  PyDict (List.map (fun kv => (kv.1, py_of_literal kv.2)) literals))]
          end);
         ("_hash", match h with None => PyNone | Some h => PyStr h end);
         ("_metadata",
          match md with
          | None => PyNone
          | Some d => PyDict (List.map (fun kv => (kv.1, PyStr kv.2)) d)
          end)]
  end.

(** ** The hasher

    [joblib.hashing.NumpyHasher] is a pickler that feeds an MD5 digest.  Its
    [save] writes an object to the stream and calls [self.save] on each part
    of the object, so a subclass that overrides [save] sees every part.  The
    library is not part of the repository: a [NumpyHasher] gives what the
    base class writes for every kind of object, given for each part what
    [self.save] does with it. *)
Class NumpyHasher (Stream : Type) := {
  Hasher_init : Stream;
  save_none : Stream -> Stream;
  save_str : string -> Stream -> Stream;
  save_global : string -> Stream -> Stream;
  save_message : Message -> Stream -> Stream;
  save_struct : dict Message -> Stream -> Stream;
  save_list : list (Stream -> Stream) -> Stream -> Stream;
  save_dict : dict (Stream -> Stream) -> Stream -> Stream;
  save_reduce : string -> dict (Stream -> Stream) -> Stream -> Stream;
  hexdigest : Stream -> string
}.

(** [NumpyHasher.save(self, obj)], with [self.save] as [self_save]. *)
Definition NumpyHasher_save `{NumpyHasher Stream}
    (self_save : PyObj -> Stream -> Stream) (obj : PyObj) : Stream -> Stream :=
  match obj with
  | PyNone => save_none
  | PyStr s => save_str s
  | PyType qualname => save_global qualname
  | PyMessage m => save_message m
  | PyStruct fields => save_struct fields
  | PyList items => save_list (List.map self_save items)
  | PyDict items => save_dict (List.map (fun kv => (kv.1, self_save kv.2)) items)
  | PyObject cls state =>
      save_reduce cls (List.map (fun kv => (kv.1, self_save kv.2)) state)
  end.

(** The base class on its own, without an override of [save]. *)
Fixpoint NumpyHasher_save_rec `{NumpyHasher Stream} (obj : PyObj) : Stream -> Stream :=
  NumpyHasher_save NumpyHasher_save_rec obj.

(** [sorted(obj.fields.items())]: the items are (key, value) tuples, compared
    by key first; the keys of a dictionary are distinct, so no comparison
    reaches the values. *)
Definition item_le {V} (a b : string * V) : Prop := String.le a.1 b.1.

#[global] Instance item_le_dec {V} : RelDecision (@item_le V).
Proof. intros a b. unfold item_le. apply _. Defined.

Definition sorted {V} (items : dict V) : dict V := merge_sort item_le items.

Definition Struct_qualname : string := "google.protobuf.struct_pb2.Struct".

(** Lines 34-38 of [ProtoJoblibHasher.save]: the dictionary that replaces a
    [Struct]. *)
Definition Struct_rewrite (fields : dict Message) : PyObj :=
  PyDict
    [("rewrite_rule", PyStr Struct_qualname);
     ("cls", PyType Struct_qualname);
     ("obj", PyDict (List.map (fun kv => (kv.1, PyMessage kv.2)) (sorted fields)))].

(** ** [ProtoJoblibHasher.save] (local_cache.py, lines 31-39)

    The dictionary that replaces a [Struct] holds strings, a class and
    messages only, so below it [self.save] is the base class's [save];
    [ProtoJoblibHasher_save_eq] gives the equation of the source. *)
Fixpoint ProtoJoblibHasher_save `{NumpyHasher Stream} (obj : PyObj) : Stream -> Stream :=
  match obj with
  | PyStruct fields => NumpyHasher_save_rec (Struct_rewrite fields)
  | _ => NumpyHasher_save ProtoJoblibHasher_save obj
  end.

(** [Hasher.hash]: save the object into a fresh stream and return the digest. *)
Definition ProtoJoblibHasher_hash `{NumpyHasher Stream} (obj : PyObj) : string :=
  hexdigest (ProtoJoblibHasher_save obj Hasher_init).

(** ** [_calculate_cache_key] (local_cache.py, lines 42-50) *)

Definition literal_map_overridden (input_literal_map : LiteralMap) : dict Literal :=
  foldl (fun d kv => dict_set d kv.1 (_recursive_hash_placement kv.2)) [] input_literal_map.

Definition _calculate_cache_key `{NumpyHasher Stream}
    (task_name cache_version : string) (input_literal_map : LiteralMap) : string :=
  let hashed_inputs :=
    ProtoJoblibHasher_hash
      (PyDict (List.map (fun kv => (kv.1, py_of_literal kv.2))
                 (literal_map_overridden input_literal_map))) in
  task_name +:+ "-" +:+ cache_version +:+ "-" +:+ hashed_inputs.

(** ** [LocalTaskCache] (local_cache.py, lines 53-82)

    [diskcache.Cache(directory)] is a handle on a key-value store kept in a
    directory, which it creates when missing; [get] gives [None] for a key
    that is absent, [add] stores a value only when the key is absent, [clear]
    removes every item. *)

Definition CACHE_LOCATION : string := "~/.flyte/local-cache".

Record Cache := mkCache { directory : string }.

Abbreviation Disk := (gmap string (gmap string LiteralMap)).

Definition Cache_open (dir : string) (disk : Disk) : Cache * Disk :=
  (mkCache dir,
   match disk !! dir with Some _ => disk | None => <[dir := ∅]> disk end).

Definition Cache_get (c : Cache) (key : string) (disk : Disk) : option LiteralMap :=
  disk !! directory c ≫= (.!! key).

Definition Cache_add (c : Cache) (key : string) (value : LiteralMap) (disk : Disk) : Disk :=
  let store := default ∅ (disk !! directory c) in
  match store !! key with
  | Some _ => disk
  | None => <[directory c := <[key := value]> store]> disk
  end.

Definition Cache_clear (c : Cache) (disk : Disk) : Disk :=
  <[directory c := ∅]> disk.

Inductive Result (A : Type) :=
| Ok (a : A)
| AttributeError (name : string).
Arguments Ok {A} a.
Arguments AttributeError {A} name.

Module LocalTaskCache.

(** The class attributes of [LocalTaskCache], and the file system.  [_cache]
    is declared without a value: reading it before [initialize] raises
    [AttributeError]. *)
Record t := mk {
  _cache : option Cache;
  _initialized : bool;
  disk : Disk
}.

(** The class when the module is loaded. *)
Definition loaded (d : Disk) : t := mk None false d.

Definition initialize (st : t) : t :=
  let '(c, d) := Cache_open CACHE_LOCATION (disk st) in
  mk (Some c) true d.

Definition lazy_initialize (st : t) : t :=
  if _initialized st then st else initialize st.

Definition clear (st : t) : Result unit * t :=
  let st := lazy_initialize st in
  match _cache st with
  | None => (AttributeError "_cache", st)
  | Some c => (Ok (), mk (_cache st) (_initialized st) (Cache_clear c (disk st)))
  end.

Definition get `{NumpyHasher Stream}
    (task_name cache_version : string) (input_literal_map : LiteralMap)
    (st : t) : Result (option LiteralMap) * t :=
  let st := lazy_initialize st in
  match _cache st with
  | None => (AttributeError "_cache", st)
  | Some c =>
      (Ok (Cache_get c (_calculate_cache_key task_name cache_version input_literal_map)
             (disk st)), st)
  end.

Definition set `{NumpyHasher Stream}
    (task_name cache_version : string) (input_literal_map : LiteralMap)
    (value : LiteralMap) (st : t) : Result unit * t :=
  let st := lazy_initialize st in
  match _cache st with
  | None => (AttributeError "_cache", st)
  | Some c =>
      (Ok (),
       mk (_cache st) (_initialized st)
         (Cache_add c (_calculate_cache_key task_name cache_version input_literal_map)
            value (disk st)))
  end.

End LocalTaskCache.

(** ** The agent executor mixin (mixins.py)

    The states of [flyteidl.admin.agent_pb2.State]. *)
Inductive State := RETRYABLE_FAILURE | PERMANENT_FAILURE | PENDING | RUNNING | SUCCEEDED.

#[global] Instance State_eq_dec : EqDecision State.
Proof. solve_decision. Defined.

Definition State_Name (s : State) : string :=
  match s with
  | RETRYABLE_FAILURE => "RETRYABLE_FAILURE"
  | PERMANENT_FAILURE => "PERMANENT_FAILURE"
  | PENDING => "PENDING"
  | RUNNING => "RUNNING"
  | SUCCEEDED => "SUCCEEDED"
  end.

(** Modelled from the spec: [is_terminal_state] of
    [flytekit.extend.backend.utils], which [mixins.py] imports; a terminal
    state is success or a failure. *)
Definition is_terminal_state (s : State) : bool :=
  match s with
  | SUCCEEDED | RETRYABLE_FAILURE | PERMANENT_FAILURE => true
  | PENDING | RUNNING => false
  end.

Record TaskLog := mkTaskLog { link_name : string; link_uri : string }.

Record Resource := mkResource {
  state : State;
  outputs : LiteralMap;
  message : string;
  log_links : list TaskLog
}.

(** [CreateTaskResponse] holds either the handle or, for a task that
    finished at once, the resource; [GetTaskResponse] holds the resource. *)
Inductive CreateTaskResponse :=
| with_resource_meta (meta : string)
| with_resource (r : Resource).

Definition HasField_resource (res : CreateTaskResponse) : option Resource :=
  match res with with_resource r => Some r | with_resource_meta _ => None end.

Definition resource_meta (res : CreateTaskResponse) : string :=
  match res with with_resource_meta meta => meta | with_resource _ => "" end.

Record GetTaskResponse := mkGetTaskResponse { resource : Resource }.

Definition LiteralType : Type := string.

Record TaskTemplate := mkTaskTemplate {
  template_type : string;
  interface_outputs : dict LiteralType;
  container_args : list string
}.

(** The remote backend: an agent over its own state [B]. *)
Class AgentBase (B : Type) := {
  asynchronous : bool;
  agent_create : string -> TaskTemplate -> LiteralMap -> B -> CreateTaskResponse * B;
  agent_get : string -> B -> GetTaskResponse * B;
  agent_delete : string -> B -> B
}.

(** A value of a keyword argument: a native Python value, or a [Literal]. *)
Inductive PyValue :=
| Native (repr : string)
| OfLiteral (l : Literal).

(** [self._entity], and what the flytekit runtime provides: the type engine,
    [render_task_template] and the names that [file_access] draws. *)
Record PythonTask := mkPythonTask {
  name : string;
  interface_inputs : dict LiteralType;
  template : TaskTemplate;
  is_PythonFunctionTask : bool
}.

Class Runtime := {
  to_literal : PyValue -> LiteralType -> option Literal;
  render_task_template : TaskTemplate -> string -> TaskTemplate;
  random_remote_directory : nat -> string;
  random_local_path : nat -> string
}.

Inductive Event :=
| EvPutData (local_path remote_path : string)
| EvGetData (remote_path local_path : string)
| EvCreate (output_prefix : string) (literal_map : LiteralMap)
| EvSignal (meta : string)
| EvSleep (seconds : nat)
| EvGet (meta : string)
| EvCreateTask (meta : string)
| EvDelete (meta : string)
| EvPrint (line : string).

Inductive Exception :=
| FlyteUserException (msg : string)
| KeyError (key : string)
| TypeTransformerFailedError (key : string)
| TypeError (what : string)
| FileNotFoundError (path : string)
| UnboundLocalError (var : string)
| KeyboardInterrupt.

(** How a call ends: it returns, raises, leaves the process through
    [sys.exit], or the model's loop bound is reached. *)
Inductive Outcome (A : Type) :=
| Return (a : A)
| Raise (e : Exception)
| SystemExit (code : Z)
| OutOfFuel.
Arguments Return {A} a.
Arguments Raise {A} e.
Arguments SystemExit {A} code.
Arguments OutOfFuel {A}.

(** The world of one execution: the backend, the blob store and the local
    files, the dictionaries by identity, the attribute [_clean_up_task] (the
    handle that the scheduled task deletes), the installed SIGINT handler
    (the handle it was bound to), the interrupts that arrive during each of
    the coming calls of [time.sleep], the counter behind the random names,
    and what has happened so far. *)
Record World (B : Type) := mkWorld {
  backend : B;
  remote : gmap string LiteralMap;
  local : gmap string LiteralMap;
  heap : gmap nat (dict PyValue);
  _clean_up_task : option string;
  sigint : option string;
  interrupts : list nat;
  entropy : nat;
  trace : list Event
}.
Arguments mkWorld {B}.
Arguments backend {B}.
Arguments remote {B}.
Arguments local {B}.
Arguments heap {B}.
Arguments _clean_up_task {B}.
Arguments sigint {B}.
Arguments interrupts {B}.
Arguments entropy {B}.
Arguments trace {B}.

Definition M (B A : Type) : Type := World B -> Outcome A * World B.

Definition ret {B A} (a : A) : M B A := fun w => (Return a, w).

Definition bind {B A A'} (c : M B A) (k : A -> M B A') : M B A' :=
  fun w =>
    match c w with
    | (Return a, w') => k a w'
    | (Raise e, w') => (Raise e, w')
    | (SystemExit code, w') => (SystemExit code, w')
    | (OutOfFuel, w') => (OutOfFuel, w')
    end.

Definition raise {B A} (e : Exception) : M B A := fun w => (Raise e, w).
Definition sys_exit {B A} (code : Z) : M B A := fun w => (SystemExit code, w).
Definition out_of_fuel {B A} : M B A := fun w => (OutOfFuel, w).

Notation "'do' x <- c ; k" := (bind c (fun x => k))
  (at level 10, x name, c at level 100, k at level 200).
Notation "c ;; k" := (bind c (fun _ => k))
  (at level 100, k at level 200, right associativity).

Definition log {B} (e : Event) : M B unit := fun w =>
  (Return (),
   mkWorld (backend w) (remote w) (local w) (heap w) (_clean_up_task w) (sigint w)
     (interrupts w) (entropy w) (trace w ++ [e])).

Definition on_backend {B A} (f : B -> A * B) : M B A := fun w =>
  (Return (f (backend w)).1,
   mkWorld (f (backend w)).2 (remote w) (local w) (heap w) (_clean_up_task w) (sigint w)
     (interrupts w) (entropy w) (trace w)).

Definition set_remote {B} (path : string) (f : LiteralMap) : M B unit := fun w =>
  (Return (),
   mkWorld (backend w) (<[path := f]> (remote w)) (local w) (heap w) (_clean_up_task w)
     (sigint w) (interrupts w) (entropy w) (trace w)).

Definition set_local {B} (path : string) (f : LiteralMap) : M B unit := fun w =>
  (Return (),
   mkWorld (backend w) (remote w) (<[path := f]> (local w)) (heap w) (_clean_up_task w)
     (sigint w) (interrupts w) (entropy w) (trace w)).

Definition set_heap {B} (h : gmap nat (dict PyValue)) : M B unit := fun w =>
  (Return (),
   mkWorld (backend w) (remote w) (local w) h (_clean_up_task w) (sigint w)
     (interrupts w) (entropy w) (trace w)).

Definition set_clean_up_task {B} (t : option string) : M B unit := fun w =>
  (Return (),
   mkWorld (backend w) (remote w) (local w) (heap w) t (sigint w)
     (interrupts w) (entropy w) (trace w)).

Definition set_sigint {B} (h : option string) : M B unit := fun w =>
  (Return (),
   mkWorld (backend w) (remote w) (local w) (heap w) (_clean_up_task w) h
     (interrupts w) (entropy w) (trace w)).

Definition next_interrupts {B} : M B nat := fun w =>
  (Return (hd 0 (interrupts w)),
   mkWorld (backend w) (remote w) (local w) (heap w) (_clean_up_task w) (sigint w)
     (tl (interrupts w)) (entropy w) (trace w)).

Definition draw {B} : M B nat := fun w =>
  (Return (entropy w),
   mkWorld (backend w) (remote w) (local w) (heap w) (_clean_up_task w) (sigint w)
     (interrupts w) (S (entropy w)) (trace w)).

Definition read {B A} (f : World B -> A) : M B A := fun w => (Return (f w), w).

Fixpoint for_each {B A} (xs : list A) (body : A -> M B unit) : M B unit :=
  match xs with
  | [] => ret ()
  | x :: rest => body x ;; for_each rest body
  end.

Fixpoint times {B} (n : nat) (c : M B unit) : M B unit :=
  match n with
  | 0 => ret ()
  | S n => c ;; times n c
  end.

Module AsyncAgentExecutorMixin.

Section Mixin.
Context {B : Type} `{AgentBase B} `{Runtime}.
Variable _entity : PythonTask.

(** *** [signal_handler] (mixins.py, lines 131-137)

    [asyncio.create_task] schedules the delete, which runs when the task
    is awaited. *)
Definition signal_handler (meta : string) : M B unit :=
  if asynchronous then
    do task <- read _clean_up_task;
    match task with
    | None => log (EvCreateTask meta) ;; set_clean_up_task (Some meta)
    | Some _ => ret ()
    end
  else
    log (EvDelete meta) ;;
    on_backend (fun b => ((), agent_delete meta b)) ;;
    sys_exit 1.

(** [await self._clean_up_task], for a task that the handler scheduled
    during the [_get] that awaits it: the scheduled delete runs.  A task left
    from before that [_get] is outside this model. *)
Definition await_clean_up_task (meta : string) : M B unit :=
  log (EvDelete meta) ;;
  on_backend (fun b => ((), agent_delete meta b)).

(** [time.sleep]: the interrupts of this sleep run the installed handler;
    without a handler, Python raises [KeyboardInterrupt]. *)
Definition sleep (seconds : nat) : M B unit :=
  log (EvSleep seconds) ;;
  do n <- next_interrupts;
  do handler <- read sigint;
  match handler with
  | Some meta => times n (signal_handler meta)
  | None => match n with 0 => ret () | S _ => raise KeyboardInterrupt end
  end.

(** *** [_get] (mixins.py, lines 107-129)

    [poll] is the [while] loop, bounded by [fuel]; [res] is unbound until
    the first poll. *)
Definition poll_once (meta : string) : M B GetTaskResponse :=
  sleep 1 ;;
  if asynchronous then
    do res <- (log (EvGet meta) ;; on_backend (agent_get meta));
    do task <- read _clean_up_task;
    match task with
    | Some m => await_clean_up_task m ;; sys_exit 1
    | None => ret res
    end
  else
    log (EvGet meta) ;; on_backend (agent_get meta).

Fixpoint poll (fuel : nat) (meta : string) (st : State) (res : option GetTaskResponse)
    : M B (State * option GetTaskResponse) :=
  if is_terminal_state st then ret (st, res)
  else
    match fuel with
    | 0 => out_of_fuel
    | S fuel =>
        do res <- poll_once meta;
        poll fuel meta (state (resource res)) (Some res)
    end.

Definition _get (fuel : nat) (meta : string) : M B GetTaskResponse :=
  do r <- poll fuel meta RUNNING None;
  match r.2 with
  | None => raise (UnboundLocalError "res")
  | Some res =>
      log (EvPrint ("Task state: " +:+ State_Name r.1 +:+ ", State message: "
                    +:+ message (resource res))) ;;
      for_each (log_links (resource res))
        (fun link => log (EvPrint (link_name link +:+ ": " +:+ link_uri link))) ;;
      ret res
  end.

(** *** [_create] (mixins.py, lines 81-105)

    [inputs] is the identity of a dictionary.  [inputs or {}] is [inputs]
    itself unless the dictionary is empty, and a new dictionary then. *)
Definition fresh_loc (h : gmap nat (dict PyValue)) : nat := fresh (dom h).

Definition inputs_or_new (inputs : nat) : M B nat :=
  do h <- read heap;
  match default [] (h !! inputs) with
  | [] => let l := fresh_loc h in set_heap (<[l := []]> h) ;; ret l
  | _ :: _ => ret inputs
  end.

Definition setitem (d : nat) (k : string) (v : PyValue) : M B unit :=
  do h <- read heap;
  set_heap (<[d := dict_set (default [] (h !! d)) k v]> h).

Definition convert (k : string) (v : PyValue) : M B Literal :=
  match dict_get (interface_inputs _entity) k with
  | None => raise (KeyError k)
  | Some ty =>
      match to_literal v ty with
      | None => raise (TypeTransformerFailedError k)
      | Some l => ret l
      end
  end.

(** [LiteralMap(literals)] as the agent reads it. *)
Fixpoint as_literals (d : dict PyValue) : option LiteralMap :=
  match d with
  | [] => Some []
  | (k, OfLiteral l) :: rest => cons (k, l) <$> as_literals rest
  | (_, Native _) :: _ => None
  end.

Definition _create (task_template : TaskTemplate) (output_prefix : string)
    (inputs : nat) : M B CreateTaskResponse :=
  do literals <- inputs_or_new inputs;
  do items <- read (fun w => default [] (heap w !! inputs));
  for_each items
    (fun kv => do l <- convert kv.1 kv.2; setitem literals kv.1 (OfLiteral l)) ;;
  do d <- read (fun w => default [] (heap w !! literals));
  match as_literals d with
  | None => raise (TypeError "literals")
  | Some literal_map =>
      do task_template <-
        (if is_PythonFunctionTask _entity then
           do n <- draw;
           let path := random_local_path n in
           set_local path literal_map ;;
           log (EvPutData path (output_prefix +:+ "/inputs.pb")) ;;
           set_remote (output_prefix +:+ "/inputs.pb") literal_map ;;
           ret (render_task_template task_template output_prefix)
         else ret task_template);
      log (EvCreate output_prefix literal_map) ;;
      do res <- on_backend (agent_create output_prefix task_template literal_map);
      log (EvSignal (resource_meta res)) ;;
      set_sigint (Some (resource_meta res)) ;;
      ret res
  end.

(** *** [execute] (mixins.py, lines 48-79)

    [kwargs] is a dictionary made for this call. *)
Definition failed : Exception :=
  FlyteUserException ("Failed to run the task " +:+ name _entity).

Definition get_data (remote_path local_path : string) : M B unit :=
  log (EvGetData remote_path local_path) ;;
  do file <- read (fun w => remote w !! remote_path);
  match file with
  | None => raise (FileNotFoundError remote_path)
  | Some f => set_local local_path f
  end.

Definition load_proto_from_file (path : string) : M B LiteralMap :=
  do file <- read (fun w => local w !! path);
  match file with
  | None => raise (FileNotFoundError path)
  | Some f => ret f
  end.

(** Lines 49-59: the output prefix, the template, and [_create]. *)
Definition submit (kwargs : dict PyValue) : M B (string * CreateTaskResponse) :=
  do n <- draw;
  let output_prefix := random_remote_directory n in
  let task_template := template _entity in
  do h <- read heap;
  let kw := fresh_loc h in
  set_heap (<[kw := kwargs]> h) ;;
  do res <- _create task_template output_prefix kw;
  ret (output_prefix, res).

Definition execute (fuel : nat) (kwargs : dict PyValue) : M B LiteralMap :=
  do created <- submit kwargs;
  let output_prefix := created.1 in
  let task_template := template _entity in
  match HasField_resource created.2 with
  | Some r =>
      if decide (state r = SUCCEEDED) then ret (outputs r) else raise failed
  | None =>
      do res <- _get fuel (resource_meta created.2);
      if decide (state (resource res) = SUCCEEDED) then
        match interface_outputs task_template, outputs (resource res) with
        | _ :: _, [] =>
            do n <- draw;
            let local_outputs_file := random_local_path n in
            get_data (output_prefix +:+ "/output/outputs.pb") local_outputs_file ;;
            load_proto_from_file local_outputs_file
        | _, _ => ret (outputs (resource res))
        end
      else raise failed
  end.
End Mixin.

End AsyncAgentExecutorMixin.

(** ** Relations between inputs *)

(** Two literals that differ only inside nodes that are neither a
    collection nor a map and carry the same hash: the scalar and the metadata
    of such a node are free. *)
Inductive hashed_leaf_variant : Literal -> Literal -> Prop :=
| hlv_same l : hashed_leaf_variant l l
| hlv_leaf s1 s2 h md1 md2 :
    hashed_leaf_variant (mkLiteral s1 None None (Some h) md1)
                        (mkLiteral s2 None None (Some h) md2)
| hlv_collection s ls1 ls2 m h md :
    Forall2 hashed_leaf_variant ls1 ls2 ->
    hashed_leaf_variant (mkLiteral s (Some ls1) m h md) (mkLiteral s (Some ls2) m h md)
| hlv_map s m1 m2 h md :
    Forall2 (fun a b => a.1 = b.1 /\ hashed_leaf_variant a.2 b.2) m1 m2 ->
    hashed_leaf_variant (mkLiteral s None (Some m1) h md) (mkLiteral s None (Some m2) h md).

(** Two literals that differ only in what a collection or a map carries
    beside its children, at any depth: the scalar, the hash and the metadata
    of such a node, and the map of a collection, are free. *)
Inductive container_tags_variant : Literal -> Literal -> Prop :=
| ctv_same l : container_tags_variant l l
| ctv_collection s s' ls1 ls2 m m' h h' md md' :
    Forall2 container_tags_variant ls1 ls2 ->
    container_tags_variant (mkLiteral s (Some ls1) m h md)
                           (mkLiteral s' (Some ls2) m' h' md')
| ctv_map s s' m1 m2 h h' md md' :
    Forall2 (fun a b => a.1 = b.1 /\ container_tags_variant a.2 b.2) m1 m2 ->
    container_tags_variant (mkLiteral s None (Some m1) h md)
                           (mkLiteral s' None (Some m2) h' md').



(** The same relations on named input sets, key by key. *)
Definition inputs_related (R : Literal -> Literal -> Prop) (i1 i2 : LiteralMap) : Prop :=
  Forall2 (fun a b => a.1 = b.1 /\ R a.2 b.2) i1 i2.

(** ** The cache store *)

(** [initialize] is the only assignment to [_initialized] and [_cache]. *)
Definition cache_inv (st : LocalTaskCache.t) : Prop :=
  LocalTaskCache._initialized st = true ->
  LocalTaskCache._cache st = Some (mkCache CACHE_LOCATION).

(** The class after [initialize]: both attributes are set. *)
Definition initialized (st : LocalTaskCache.t) : Prop :=
  LocalTaskCache._initialized st = true
  /\ LocalTaskCache._cache st = Some (mkCache CACHE_LOCATION).

(** What the store at [CACHE_LOCATION] holds under a key. *)
Definition stored (key : string) (d : Disk) : option LiteralMap :=
  Cache_get (mkCache CACHE_LOCATION) key d.

(** ** The backend seen through its polls *)

Section Polls.
Context {B : Type} `{AgentBase B}.

(** The backend after [n] calls of [get], and the response to the next. *)
Fixpoint backend_after (n : nat) (meta : string) (b : B) : B :=
  match n with
  | 0 => b
  | S n => backend_after n meta (agent_get meta b).2
  end.

Definition response (n : nat) (meta : string) (b : B) : GetTaskResponse :=
  (agent_get meta (backend_after n meta b)).1.
End Polls.

Definition is_EvGetData (e : Event) : bool :=
  match e with EvGetData _ _ => true | _ => false end.
Definition is_EvDelete (e : Event) : bool :=
  match e with EvDelete _ => true | _ => false end.
Definition is_EvGet (e : Event) : bool :=
  match e with EvGet _ => true | _ => false end.
Definition is_EvCreateTask (e : Event) : bool :=
  match e with EvCreateTask _ => true | _ => false end.

Definition count (p : Event -> bool) (tr : list Event) : nat := length (List.filter p tr).

(** The events of [n] rounds of the poll loop. *)
Definition rounds (n : nat) (meta : string) : list Event :=
  concat (replicate n [EvSleep 1; EvGet meta]).

(** The lines that [_get] prints at the end of the loop. *)
Definition report (res : GetTaskResponse) : list Event :=
  EvPrint ("Task state: " +:+ State_Name (state (resource res)) +:+ ", State message: "
           +:+ message (resource res))
  :: List.map (fun link => EvPrint (link_name link +:+ ": " +:+ link_uri link))
       (log_links (resource res)).

(** A computation that reads nothing from the staging location: it leaves
    the [get_data] events of the trace as they are. *)
Definition no_staging_read {B A} (c : M B A) : Prop :=
  forall w, List.filter is_EvGetData (trace (c w).2) = List.filter is_EvGetData (trace w).

(** The literals that [_create] computes for the items of a dictionary, when
    every key is an input of the interface and every value converts. *)
Fixpoint to_literals `{Runtime} (interface : dict LiteralType) (items : dict PyValue)
    : option LiteralMap :=
  match items with
  | [] => Some []
  | (k, v) :: rest =>
      match dict_get interface k with
      | None => None
      | Some ty =>
          match to_literal v ty with
          | None => None
          | Some l => cons (k, l) <$> to_literals interface rest
          end
      end
  end.

Definition of_literals (literal_map : LiteralMap) : dict PyValue :=
  List.map (fun kv => (kv.1, OfLiteral kv.2)) literal_map.

(** ** The Anyscale task (flytekitplugins/ray/task.py, lines 146-159)

    The second [execute] of [AnyscaleFunctionTask], the one that the class
    keeps.  [PythonFunctionTask.execute] runs the task function in process and
    [str] gives the text of an exception; [except Exception] catches every
    exception but [KeyboardInterrupt], and [sys.exit] passes through it. *)
Section Anyscale.
Context {B : Type} `{AgentBase B} `{Runtime}.
Variable _entity : PythonTask.
Variable PythonFunctionTask_execute : dict PyValue -> M B LiteralMap.
Variable str : Exception -> string.

Definition is_Exception (e : Exception) : bool :=
  match e with KeyboardInterrupt => false | _ => true end.

Definition not_remote_message : string :=
  "To submit a Databricks job locally, please set --raw-output-data-prefix to a remote path. e.g. s3://, gcs//, etc.".

(** The [except] clause, and the call after the [try] statement. *)
Definition fall_back (error : string) (kwargs : dict PyValue) : M B LiteralMap :=
  log (EvPrint ("❌ Agent failed to run the task with error: " +:+ error)) ;;
  log (EvPrint "Falling back to local execution") ;;
  PythonFunctionTask_execute kwargs.

Definition AnyscaleFunctionTask_execute (raw_output_prefix_is_remote : bool)
    (execution_state : option bool) (fuel : nat) (kwargs : dict PyValue)
    : M B LiteralMap :=
  if raw_output_prefix_is_remote then
    match execution_state with
    | Some true =>
        fun w =>
          match AsyncAgentExecutorMixin.execute _entity fuel kwargs w with
          | (Raise e, w') =>
              if is_Exception e then fall_back (str e) kwargs w' else (Raise e, w')
          | result => result
          end
    | _ => PythonFunctionTask_execute kwargs
    end
  else fall_back not_remote_message kwargs.
End Anyscale.

(** ** What [_create] leaves

    The response and the world after the lines 92-105 of [_create], for the
    literal map that the conversion gave. *)
Definition created {B} `{AgentBase B} `{Runtime} (_entity : PythonTask)
    (task_template : TaskTemplate) (output_prefix : string) (literal_map : LiteralMap)
    (w : World B) : CreateTaskResponse * World B :=
  let staged := is_PythonFunctionTask _entity in
  let path := random_local_path (entropy w) in
  let rendered :=
    if staged then render_task_template task_template output_prefix else task_template in
  let answer := agent_create output_prefix rendered literal_map (backend w) in
  (answer.1,
   mkWorld answer.2
     (if staged then <[output_prefix +:+ "/inputs.pb" := literal_map]> (remote w)
      else remote w)
     (if staged then <[path := literal_map]> (local w) else local w)
     (heap w) (_clean_up_task w) (Some (resource_meta answer.1)) (interrupts w)
     (if staged then S (entropy w) else entropy w)
     (((if staged then trace w ++ [EvPutData path (output_prefix +:+ "/inputs.pb")]
        else trace w)
       ++ [EvCreate output_prefix literal_map])
      ++ [EvSignal (resource_meta answer.1)])).

(** Two worlds that differ in the dictionaries only. *)
Definition same_but_heap {B} (w w' : World B) : Prop :=
  backend w' = backend w /\ remote w' = remote w /\ local w' = local w
  /\ _clean_up_task w' = _clean_up_task w /\ sigint w' = sigint w
  /\ interrupts w' = interrupts w /\ entropy w' = entropy w /\ trace w' = trace w.

(** A world in which no interrupt arrives and no cleanup task is set, and a
    computation that keeps such a world so, deletes nothing, schedules no
    cleanup and does not leave the process. *)
Definition calm {B} (w : World B) : Prop :=
  Forall (eq 0) (interrupts w) /\ _clean_up_task w = None.

Definition undisturbed {B A} (c : M B A) : Prop :=
  forall w, calm w ->
    calm (c w).2
    /\ List.filter is_EvDelete (trace (c w).2) = List.filter is_EvDelete (trace w)
    /\ List.filter is_EvCreateTask (trace (c w).2) = List.filter is_EvCreateTask (trace w)
    /\ forall code, (c w).1 <> SystemExit code.

(** ** Basic authentication (clis/sdk_in_container/basic_auth.py) *)

Module basic_auth.

Inductive Failure :=
| IOError (location : string)
| FlyteAuthenticationException (msg : string).

Inductive Attempt (A : Type) :=
| Got (a : A)
| Failed (f : Failure).
Arguments Got {A} a.
Arguments Failed {A} f.

Definition newline : Ascii.ascii := Ascii.ascii_of_nat 10.
Definition colon : Ascii.ascii := Ascii.ascii_of_nat 58.

(** [text.replace('\n', '')]. *)
Fixpoint remove_newlines (text : string) : string :=
  match text with
  | EmptyString => EmptyString
  | String c rest =>
      if Ascii.eqb c newline then remove_newlines rest
      else String c (remove_newlines rest)
  end.

(** [get_file_contents] (lines 21-30); [files] gives for a path the text
    that [read] returns, and [open] raises for a path that is missing. *)
Definition get_file_contents (files : gmap string string) (location : string)
    : Attempt string :=
  match files !! location with
  | Some text => Got (remove_newlines text)
  | None => Failed (IOError location)
  end.

(** The two configuration entries that [get_secret] reads: the value of each
    is a string or [None], and the second has the name of its environment
    variable. *)
Record Credentials := mkCredentials {
  CLIENT_CREDENTIALS_SECRET_LOCATION : option string;
  CLIENT_CREDENTIALS_SECRET : option string;
  env_var : string
}.

(** The truth value of a configuration value: [None] and the empty string
    are false. *)
Definition is_set (value : option string) : bool :=
  match value with
  | Some (String _ _) => true
  | _ => false
  end.

Definition format_value (value : option string) : string := default "None" value.

(** [get_secret] (lines 33-44). *)
Definition get_secret (files : gmap string string) (cfg : Credentials) : Attempt string :=
  if is_set (CLIENT_CREDENTIALS_SECRET_LOCATION cfg) then
    get_file_contents files (default "" (CLIENT_CREDENTIALS_SECRET_LOCATION cfg))
  else if is_set (CLIENT_CREDENTIALS_SECRET cfg) then
    Got (default "" (CLIENT_CREDENTIALS_SECRET cfg))
  else
    Failed (FlyteAuthenticationException
              ("No secret could be found in either "
               +:+ format_value (CLIENT_CREDENTIALS_SECRET_LOCATION cfg)
               +:+ " or the " +:+ env_var cfg +:+ " env variable")).

(** [get_basic_authorization_header] (lines 47-56); [b64encode] is
    [base64.b64encode] on the bytes of the text. *)
Definition get_basic_authorization_header (b64encode : string -> string)
    (client_id client_secret : string) : string :=
  let concated := client_id +:+ ":" +:+ client_secret in
  "Basic " +:+ b64encode concated.

End basic_auth.

(** The characters of a text. *)
Definition chars (s : string) : list Ascii.ascii := String.list_ascii_of_string s.

(** ** The fetch command (clis/sdk_in_container/fetch.py)

    Attribute access and truth value on the objects that the command reads:
    an instance keeps the attribute [a] under ["_a"], [None] has no
    attributes, and [None] and the empty string are false. *)

Module fetch.

Inductive Data :=
| OfLiteral (l : Literal)
| OfLiteralsResolver (literals : dict Literal)
| Other (o : PyObj).

Inductive Output :=
| Secho (line : string)
| Print (p : PyObj)
| GetData (remote_path : PyObj) (local_path : string).

Inductive Outcome :=
| Done
| AttributeError (object attribute : string).

Inductive Attr :=
| Value (o : PyObj)
| NoAttribute (object attribute : string).

Definition getattr (o : PyObj) (attribute : string) : Attr :=
  match o with
  | PyObject cls state =>
      match dict_get state ("_" +:+ attribute) with
      | Some v => Value v
      | None => NoAttribute cls attribute
      end
  | PyNone => NoAttribute "NoneType" attribute
  | _ => NoAttribute "object" attribute
  end.

Definition truth (o : PyObj) : bool :=
  match o with
  | PyNone => false
  | PyStr EmptyString => false
  | PyList [] => false
  | PyDict [] => false
  | _ => true
  end.

Definition truth_of_text (text : option string) : bool :=
  match text with
  | Some (String _ _) => true
  | _ => false
  end.

Section Command.
Variable remote_get : string -> Data.
Variable literal_string_repr : Literal -> PyObj.
Variable literal_map_string_repr : dict Literal -> PyObj.

(** Lines 38-46, for a literal: [uri] is taken from the blob or from the
    structured dataset, and the data are got from [data.scalar.blob.uri]. *)
Definition download_literal (data : Literal) (download : string)
    : list Output * Outcome :=
  let scalar := default PyNone (Literal_scalar data) in
  match getattr scalar "blob" with
  | NoAttribute o a => ([], AttributeError o a)
  | Value blob =>
      let uri :=
        if truth blob then getattr blob "uri"
        else
          match getattr scalar "structured_dataset" with
          | NoAttribute o a => NoAttribute o a
          | Value sd => if truth sd then getattr sd "uri" else Value PyNone
          end in
      match uri with
      | NoAttribute o a => ([], AttributeError o a)
      | Value uri =>
          if truth uri then
            match getattr blob "uri" with
            | NoAttribute o a => ([], AttributeError o a)
            | Value blob_uri => ([GetData blob_uri download], Done)
            end
          else ([], Done)
      end
  end.

(** [fetch] (lines 19-46). *)
Definition fetch (flyte_data_uri : string) (download : option string)
    : list Output * Outcome :=
  let data := remote_get flyte_data_uri in
  let p :=
    match data with
    | OfLiteral l => literal_string_repr l
    | OfLiteralsResolver literals => literal_map_string_repr literals
    | Other o => o
    end in
  let shown := [Secho ("Fetching data from " +:+ flyte_data_uri +:+ "..."); Print p] in
  match data with
  | OfLiteral l =>
      if truth_of_text download then
        let '(out, outcome) := download_literal l (default "" download) in
        (shown ++ out, outcome)
      else (shown, Done)
  | _ => (shown, Done)
  end.
End Command.

End fetch.

(** ** Instances to run the definitions on *)

(** A hasher that keeps the stream as its digest. *)
Definition run_parts {S} (parts : list (S -> S)) (s : S) : S :=
  foldl (fun s part => part s) s parts.

#[global] Instance RecordingHasher : NumpyHasher (list string) := {
  Hasher_init := [];
  save_none s := s ++ ["N"];
  save_str x s := s ++ ["S" +:+ x];
  save_global q s := s ++ ["G" +:+ q];
  save_message m s := s ++ ["M" +:+ message_type m +:+ ":" +:+ message_bytes m];
  save_struct fields s :=
    s ++ "P" :: List.map (fun kv => kv.1 +:+ "=" +:+ message_bytes kv.2) fields;
  save_list parts s := run_parts parts (s ++ ["["]) ++ ["]"];
  save_dict items s :=
    foldl (fun s kv => kv.2 (s ++ ["K" +:+ kv.1])) (s ++ ["{"]) (sorted items) ++ ["}"];
  save_reduce cls state s :=
    foldl (fun s kv => kv.2 (s ++ ["A" +:+ kv.1])) (s ++ ["R" +:+ cls]) state ++ ["."];
  hexdigest s := foldr (fun token digest => token +:+ " " +:+ digest) "" s
}.

(** A backend that answers the polls from a script, then keeps its last
    answer; it counts the deletes. *)
Definition answer (s : State) (outs : LiteralMap) : GetTaskResponse :=
  mkGetTaskResponse (mkResource s outs "" []).

Definition ScriptedAgent (is_async : bool) (first : CreateTaskResponse)
    (outs : LiteralMap) : AgentBase (list State * nat) := {|
  asynchronous := is_async;
  agent_create _ _ _ b := (first, b);
  agent_get _ b :=
    match b.1 with
    | [] => (answer SUCCEEDED outs, b)
    | [s] => (answer s outs, b)
    | s :: rest => (answer s outs, (rest, b.2))
    end;
  agent_delete _ b := (b.1, S b.2)
|}.

#[global] Instance DemoRuntime : Runtime := {|
  to_literal v _ :=
    match v with
    | Native repr => Some (mkLiteral (Some (PyStr repr)) None None None None)
    | OfLiteral l => Some l
    end;
  render_task_template t prefix :=
    mkTaskTemplate (template_type t) (interface_outputs t) (container_args t ++ [prefix]);
  random_remote_directory n := "s3://bucket/" +:+ pretty n;
  random_local_path n := "/tmp/flyte/" +:+ pretty n
|}.

Definition demo_task : PythonTask :=
  mkPythonTask "add_numbers" [("x", "int"); ("y", "int")]
    (mkTaskTemplate "demo" [("o0", "int"); ("o1", "int")] []) false.

Definition demo_world (script : list State) (pending : list nat)
    (staged : gmap string LiteralMap) : World (list State * nat) :=
  mkWorld (script, 0) staged ∅ ∅ None None pending 0 [].

(** A world in which the handler is installed for the handle "job" and
    interrupts arrive during the coming sleeps. *)
Definition polling_world (script : list State) (pending : list nat)
    : World (list State * nat) :=
  mkWorld (script, 0) ∅ ∅ ∅ None (Some "job") pending 0 [].

Definition async_agent : AgentBase (list State * nat) :=
  ScriptedAgent true (with_resource_meta "job") [].
Definition sync_agent : AgentBase (list State * nat) :=
  ScriptedAgent false (with_resource_meta "job") [].

(** A world in which the dictionary of keyword arguments has identity 7. *)
Definition kwargs_world (kwargs : dict PyValue) : World (list State * nat) :=
  mkWorld ([], 0) ∅ ∅ {[7 := kwargs]} None None [] 0 [].

Definition int_literal (n : string) : Literal :=
  mkLiteral (Some (PyStr n)) None None None None.

Definition demo_outputs : LiteralMap := [("o0", int_literal "7"); ("o1", int_literal "8")].

(** An agent that answers [create] with a finished resource, one that
    answers the polls with outputs, a task function that returns at once,
    and the text of an exception. *)
Definition immediate_agent : AgentBase (list State * nat) :=
  ScriptedAgent false (with_resource (mkResource SUCCEEDED [] "" [])) [].
Definition inline_agent : AgentBase (list State * nat) :=
  ScriptedAgent true (with_resource_meta "job") [("o0", int_literal "7")].

Definition demo_function (kwargs : dict PyValue) : M (list State * nat) LiteralMap :=
  ret [("o0", int_literal "7")].

Definition demo_str (e : Exception) : string :=
  match e with FlyteUserException msg => msg | _ => "error" end.

(** A scalar that holds a structured dataset and no blob, and one that
    holds a blob. *)
Definition dataset_literal (uri : string) : Literal :=
  mkLiteral
    (Some (PyObject "Scalar"
             [("_blob", PyNone);
              ("_structured_dataset", PyObject "StructuredDataset" [("_uri", PyStr uri)])]))
    None None None None.

Definition blob_literal (uri : string) : Literal :=
  mkLiteral
    (Some (PyObject "Scalar"
             [("_blob", PyObject "Blob" [("_uri", PyStr uri)]);
              ("_structured_dataset", PyNone)]))
    None None None None.

(** A collection that carries a hash, with one child. *)
Definition tagged_collection (child : string) : Literal :=
  mkLiteral None (Some [int_literal child]) None (Some "h") None.

(** A scalar that carries a hash. *)
Definition hashed_leaf (payload : string) : Literal :=
  mkLiteral (Some (PyStr payload)) None None (Some "h") None.



(** * Properties *)

(** ** Fingerprinting *)

Lemma placement_items_foldl (m acc : dict Literal) :
  (fix items (kvs : dict Literal) (literal_map : dict Literal) :=
     match kvs with
     | [] => literal_map
     | (key, literal) :: rest =>
         items rest (dict_set literal_map key (_recursive_hash_placement literal))
     end) m acc
  = foldl (fun d kv => dict_set d kv.1 (_recursive_hash_placement kv.2)) acc m.
Proof.
  revert acc. induction m as [|[k l] m IH]; intros acc; [reflexivity|].
  simpl. apply IH.
Qed.

(** The map branch of [_recursive_hash_placement] builds its dictionary the
    way [_calculate_cache_key] builds [literal_map_overridden]. *)
Lemma placement_map s m h md :
  _recursive_hash_placement (mkLiteral s None (Some m) h md)
  = Literal_of_map (literal_map_overridden m).
Proof. simpl. f_equal. apply placement_items_foldl. Qed.

Lemma placement_collection s ls m h md :
  _recursive_hash_placement (mkLiteral s (Some ls) m h md)
  = Literal_of_collection (List.map _recursive_hash_placement ls).
Proof. reflexivity. Qed.

Lemma placement_hashed_leaf s h md :
  _recursive_hash_placement (mkLiteral s None None (Some h) md) = Literal_of_hash h.
Proof. reflexivity. Qed.

Lemma overridden_foldl_eq (i1 i2 : LiteralMap) (acc : dict Literal) :
  Forall2 (fun a b => a.1 = b.1 /\
                      _recursive_hash_placement a.2 = _recursive_hash_placement b.2) i1 i2 ->
  foldl (fun d kv => dict_set d kv.1 (_recursive_hash_placement kv.2)) acc i1
  = foldl (fun d kv => dict_set d kv.1 (_recursive_hash_placement kv.2)) acc i2.
Proof.
  intros Hrel. revert acc.
  induction Hrel as [|a b i1 i2 [Hk Hv] _ IH]; intros acc; [reflexivity|].
  simpl. rewrite Hk, Hv. apply IH.
Qed.

Lemma placement_variant :
  forall l1 l2, hashed_leaf_variant l1 l2 ->
  _recursive_hash_placement l1 = _recursive_hash_placement l2.
Proof.
  fix IH 3. intros l1 l2 Hv.
  destruct Hv as [l | s1 s2 h md1 md2 | s ls1 ls2 m h md Hls | s m1 m2 h md Hm].
  - reflexivity.
  - reflexivity.
  - rewrite !placement_collection. f_equal.
    induction Hls as [|a b ls1 ls2 Hab _ IHls]; [reflexivity|].
    simpl. f_equal; [apply IH, Hab | apply IHls].
  - rewrite !placement_map. f_equal. apply overridden_foldl_eq.
    induction Hm as [|a b m1 m2 [Hk Hab] _ IHm]; constructor.
    + split; [exact Hk | apply IH, Hab].
    + apply IHm.
Qed.

Lemma overridden_variant (i1 i2 : LiteralMap) :
  inputs_related hashed_leaf_variant i1 i2 ->
  literal_map_overridden i1 = literal_map_overridden i2.
Proof.
  intros Hrel. apply overridden_foldl_eq.
  eapply Forall2_impl; [exact Hrel|].
  intros a b [Hk Hv]. split; [exact Hk | apply placement_variant, Hv].
Qed.

(** X22: a node that is neither a collection nor a map and carries a hash
    is replaced by a leaf that holds the hash only, and two input sets that
    differ only inside such nodes, at any depth, get the same canonical
    dictionary and the same key, whatever the hasher. *)
Theorem X22_hashed_leaf_short_circuit `{NumpyHasher Stream}
    (task_name cache_version : string) (inputs1 inputs2 : LiteralMap) :
  inputs_related hashed_leaf_variant inputs1 inputs2 ->
  (forall s h md,
     _recursive_hash_placement (mkLiteral s None None (Some h) md) = Literal_of_hash h)
  /\ literal_map_overridden inputs1 = literal_map_overridden inputs2
  /\ _calculate_cache_key task_name cache_version inputs1
     = _calculate_cache_key task_name cache_version inputs2.
Proof.
  intros Hrel. split; [intros; apply placement_hashed_leaf|].
  pose proof (overridden_variant _ _ Hrel) as Heq.
  split; [exact Heq|].
  unfold _calculate_cache_key. rewrite Heq. reflexivity.
Qed.

Lemma X22_hashed_leaf_short_circuit_witness :
  inputs_related hashed_leaf_variant
    [("x", Literal_of_collection [hashed_leaf "a"])]
    [("x", Literal_of_collection [hashed_leaf "b"])]
  /\ _calculate_cache_key "t" "1" [("x", Literal_of_collection [hashed_leaf "a"])]
     = _calculate_cache_key "t" "1" [("x", Literal_of_collection [hashed_leaf "b"])].
Proof.
  assert (Hrel : inputs_related hashed_leaf_variant
                   [("x", Literal_of_collection [hashed_leaf "a"])]
                   [("x", Literal_of_collection [hashed_leaf "b"])]).
  { constructor; [split; [reflexivity|] | constructor].
    apply hlv_collection. constructor; [apply hlv_leaf | constructor]. }
  split; [exact Hrel|].
  apply (X22_hashed_leaf_short_circuit (H := RecordingHasher) "t" "1" _ _ Hrel).
Defined.

(** C1, at a collection that carries a hash: the code tests the collection
    before the hash, so the canonical form is a collection of the canonical
    children without the hash, where C1 has the leaf that holds the hash; two
    inputs with the same hash that differ in a child only get different
    canonical forms and, with a hasher that keeps what it is given,
    different keys. *)
Lemma C1_tagged_collection_descended :
  Literal_hash (tagged_collection "1") = Some "h"
  /\ Literal_hash (tagged_collection "2") = Some "h"
  /\ _recursive_hash_placement (tagged_collection "1")
     = Literal_of_collection [int_literal "1"]
  /\ _recursive_hash_placement (tagged_collection "1") <> Literal_of_hash "h"
  /\ literal_map_overridden [("x", tagged_collection "1")]
     <> literal_map_overridden [("x", tagged_collection "2")]
  /\ _calculate_cache_key "t" "1" [("x", tagged_collection "1")]
     <> _calculate_cache_key "t" "1" [("x", tagged_collection "2")].
Proof.
  split; [reflexivity|]. split; [reflexivity|]. split; [reflexivity|].
  split; [discriminate|]. split; [discriminate|].
  vm_compute. discriminate.
Qed.

(** The same for a map that carries a hash. *)
Lemma placement_tagged_map :
  _recursive_hash_placement
    (mkLiteral None None (Some [("k", int_literal "1")]) (Some "h") None)
  = Literal_of_map [("k", int_literal "1")].
Proof. reflexivity. Qed.

(** C9: the key joins the task name, the version and the digest with "-"
    and escapes nothing, so ("a-b", "c") and ("a", "b-c") get the same key
    for equal inputs, and what is stored under one is found under the other. *)
Theorem C9_key_not_injective `{NumpyHasher Stream} (inputs value : LiteralMap) :
  ("a-b", "c") <> ("a", "b-c")
  /\ (forall task_name cache_version,
        _calculate_cache_key task_name cache_version inputs
        = task_name +:+ "-" +:+ cache_version +:+ "-"
          +:+ ProtoJoblibHasher_hash
                (PyDict (List.map (fun kv => (kv.1, py_of_literal kv.2))
                           (literal_map_overridden inputs))))
  /\ _calculate_cache_key "a-b" "c" inputs = _calculate_cache_key "a" "b-c" inputs
  /\ (LocalTaskCache.get "a" "b-c" inputs
        (LocalTaskCache.set "a-b" "c" inputs value
           (LocalTaskCache.loaded ∅)).2).1 = Ok (Some value).
Proof.
  split; [discriminate|]. split; [reflexivity|].
  assert (Hkey : _calculate_cache_key "a-b" "c" inputs
                 = _calculate_cache_key "a" "b-c" inputs) by reflexivity.
  split; [exact Hkey|].
  unfold LocalTaskCache.get, LocalTaskCache.set, LocalTaskCache.lazy_initialize,
    LocalTaskCache.initialize, Cache_open. simpl.
  rewrite lookup_empty. simpl.
  rewrite <- Hkey.
  unfold Cache_add, Cache_get. simpl.
  rewrite lookup_insert_eq. simpl. rewrite lookup_empty.
  rewrite lookup_insert_eq. simpl. rewrite lookup_insert_eq. reflexivity.
Qed.

(** ** The override of [save] *)

Section Hasher.
Context `{NumpyHasher Stream}.


End Hasher.

#[global] Instance item_le_transitive {V} : Transitive (@item_le V).
Proof. intros a b c. unfold item_le. apply transitivity. Qed.

#[global] Instance item_le_total {V} : Total (@item_le V).
Proof. intros a b. unfold item_le. apply total, _. Qed.



Section Reordering.
Context `{NumpyHasher Stream}.


End Reordering.







(** ** The cache store *)

Lemma cache_inv_loaded (d : Disk) : cache_inv (LocalTaskCache.loaded d).
Proof. intros Hinit. discriminate. Qed.

Lemma lazy_initialize_cache (st : LocalTaskCache.t) :
  cache_inv st ->
  LocalTaskCache._cache (LocalTaskCache.lazy_initialize st) = Some (mkCache CACHE_LOCATION)
  /\ LocalTaskCache._initialized (LocalTaskCache.lazy_initialize st) = true.
Proof.
  intros Hinv. unfold LocalTaskCache.lazy_initialize.
  destruct (LocalTaskCache._initialized st) eqn:Hinit.
  - split; [apply Hinv, Hinit | exact Hinit].
  - split; reflexivity.
Qed.

Lemma lazy_initialize_stored (st : LocalTaskCache.t) (key : string) :
  stored key (LocalTaskCache.disk (LocalTaskCache.lazy_initialize st))
  = stored key (LocalTaskCache.disk st).
Proof.
  unfold LocalTaskCache.lazy_initialize.
  destruct (LocalTaskCache._initialized st); [reflexivity|].
  unfold LocalTaskCache.initialize, Cache_open, stored, Cache_get. simpl.
  destruct (LocalTaskCache.disk st !! CACHE_LOCATION) eqn:Hdir.
  - rewrite Hdir. reflexivity.
  - rewrite lookup_insert_eq. simpl. apply lookup_empty.
Qed.

Lemma lazy_initialize_idem (st : LocalTaskCache.t) :
  LocalTaskCache._initialized st = true -> LocalTaskCache.lazy_initialize st = st.
Proof. intros Hinit. unfold LocalTaskCache.lazy_initialize. rewrite Hinit. reflexivity. Qed.

Lemma stored_add (key : string) (v : LiteralMap) (d : Disk) :
  stored key (Cache_add (mkCache CACHE_LOCATION) key v d)
  = Some (default v (stored key d)).
Proof.
  unfold stored, Cache_add, Cache_get. simpl.
  destruct (d !! CACHE_LOCATION) as [store|] eqn:Hdir; simpl.
  - destruct (store !! key) as [old|] eqn:Hkey; simpl.
    + rewrite Hdir. simpl. exact Hkey.
    + rewrite lookup_insert_eq. simpl. apply lookup_insert_eq.
  - rewrite lookup_empty. rewrite lookup_insert_eq. simpl. apply lookup_insert_eq.
Qed.

Lemma Cache_add_present (key : string) (v : LiteralMap) (d : Disk) :
  is_Some (stored key d) -> Cache_add (mkCache CACHE_LOCATION) key v d = d.
Proof.
  intros [old Hold]. unfold stored, Cache_add, Cache_get in *. simpl in *.
  destruct (d !! CACHE_LOCATION) as [store|]; simpl in *; [|discriminate].
  rewrite Hold. reflexivity.
Qed.

Lemma stored_clear (key : string) (d : Disk) :
  stored key (Cache_clear (mkCache CACHE_LOCATION) d) = None.
Proof.
  unfold stored, Cache_clear, Cache_get. simpl.
  rewrite lookup_insert_eq. simpl. apply lookup_empty.
Qed.

Section Store.
Context `{NumpyHasher Stream}.
Variables task_name cache_version : string.
Variable inputs : LiteralMap.

Lemma get_result (st : LocalTaskCache.t) :
  cache_inv st ->
  LocalTaskCache.get task_name cache_version inputs st
  = (Ok (stored (_calculate_cache_key task_name cache_version inputs)
           (LocalTaskCache.disk st)),
     LocalTaskCache.lazy_initialize st).
Proof.
  intros Hinv. unfold LocalTaskCache.get.
  destruct (lazy_initialize_cache st Hinv) as [-> _].
  fold (stored (_calculate_cache_key task_name cache_version inputs)
          (LocalTaskCache.disk (LocalTaskCache.lazy_initialize st))).
  rewrite lazy_initialize_stored. reflexivity.
Qed.

Lemma set_result (value : LiteralMap) (st : LocalTaskCache.t) :
  cache_inv st ->
  LocalTaskCache.set task_name cache_version inputs value st
  = (Ok (),
     LocalTaskCache.mk (Some (mkCache CACHE_LOCATION)) true
       (Cache_add (mkCache CACHE_LOCATION)
          (_calculate_cache_key task_name cache_version inputs) value
          (LocalTaskCache.disk (LocalTaskCache.lazy_initialize st)))).
Proof.
  intros Hinv. unfold LocalTaskCache.set.
  destruct (lazy_initialize_cache st Hinv) as [-> ->]. reflexivity.
Qed.

Lemma clear_result (st : LocalTaskCache.t) :
  cache_inv st ->
  LocalTaskCache.clear st
  = (Ok (),
     LocalTaskCache.mk (Some (mkCache CACHE_LOCATION)) true
       (Cache_clear (mkCache CACHE_LOCATION)
          (LocalTaskCache.disk (LocalTaskCache.lazy_initialize st)))).
Proof.
  intros Hinv. unfold LocalTaskCache.clear.
  destruct (lazy_initialize_cache st Hinv) as [-> ->]. reflexivity.
Qed.
End Store.

(** C8: from every state of the class that [initialize] may have left, also
    the one before any operation, [get] of a key that the store does not hold
    returns [None] and raises nothing; [clear] raises nothing and leaves an
    empty store; [get], [set] and [clear] all initialize the store first. *)
Theorem C8_get_absent_clear_first `{NumpyHasher Stream}
    (task_name cache_version : string) (inputs value : LiteralMap)
    (st : LocalTaskCache.t) :
  cache_inv st ->
  stored (_calculate_cache_key task_name cache_version inputs) (LocalTaskCache.disk st)
  = None ->
  (LocalTaskCache.get task_name cache_version inputs st).1 = Ok None
  /\ (LocalTaskCache.clear st).1 = Ok ()
  /\ (forall key, stored key (LocalTaskCache.disk (LocalTaskCache.clear st).2) = None)
  /\ LocalTaskCache._initialized
       (LocalTaskCache.get task_name cache_version inputs st).2 = true
  /\ LocalTaskCache._initialized
       (LocalTaskCache.set task_name cache_version inputs value st).2 = true
  /\ LocalTaskCache._initialized (LocalTaskCache.clear st).2 = true.
Proof.
  intros Hinv Habsent.
  rewrite get_result, set_result, clear_result by exact Hinv. simpl.
  rewrite Habsent.
  split; [reflexivity|]. split; [reflexivity|].
  split; [intros key; apply stored_clear|].
  split; [apply lazy_initialize_cache, Hinv|].
  split; reflexivity.
Qed.

Lemma C8_get_absent_clear_first_witness :
  (LocalTaskCache.get "add_numbers" "1" [("x", int_literal "3")]
     (LocalTaskCache.loaded ∅)).1 = Ok None
  /\ (LocalTaskCache.clear (LocalTaskCache.loaded ∅)).1 = Ok ().
Proof.
  assert (Hinv : cache_inv (LocalTaskCache.loaded ∅)).
  { unfold cache_inv. simpl. intros Hinit. discriminate Hinit. }
  assert (Habsent :
    stored (_calculate_cache_key "add_numbers" "1" [("x", int_literal "3")])
      (LocalTaskCache.disk (LocalTaskCache.loaded ∅)) = None) by reflexivity.
  pose proof (C8_get_absent_clear_first "add_numbers" "1" [("x", int_literal "3")] []
                (LocalTaskCache.loaded ∅) Hinv Habsent) as [Hget [Hclear _]].
  split; [exact Hget | exact Hclear].
Defined.

(** C6: [set] twice with the same key and value raises nothing; the second
    [set], with any value, changes nothing; [get] then returns the value
    that the key held before the first [set], and the value that was set
    when the key held none. *)
Theorem C6_set_twice `{NumpyHasher Stream}
    (task_name cache_version : string) (inputs v v' : LiteralMap)
    (st : LocalTaskCache.t) :
  cache_inv st ->
  (LocalTaskCache.set task_name cache_version inputs v st).1 = Ok ()
  /\ LocalTaskCache.set task_name cache_version inputs v'
       (LocalTaskCache.set task_name cache_version inputs v st).2
     = (Ok (), (LocalTaskCache.set task_name cache_version inputs v st).2)
  /\ (LocalTaskCache.get task_name cache_version inputs
        (LocalTaskCache.set task_name cache_version inputs v
           (LocalTaskCache.set task_name cache_version inputs v st).2).2).1
     = Ok (Some (default v
                   (stored (_calculate_cache_key task_name cache_version inputs)
                      (LocalTaskCache.disk st))))
  /\ (stored (_calculate_cache_key task_name cache_version inputs)
        (LocalTaskCache.disk st) = None ->
      (LocalTaskCache.get task_name cache_version inputs
         (LocalTaskCache.set task_name cache_version inputs v
            (LocalTaskCache.set task_name cache_version inputs v st).2).2).1
      = Ok (Some v)).
Proof.
  intros Hinv.
  rewrite (set_result _ _ _ v st Hinv). cbn [fst snd].
  set (key := _calculate_cache_key task_name cache_version inputs).
  set (d1 := Cache_add (mkCache CACHE_LOCATION) key v
               (LocalTaskCache.disk (LocalTaskCache.lazy_initialize st))).
  set (st1 := LocalTaskCache.mk (Some (mkCache CACHE_LOCATION)) true d1).
  assert (Hinv1 : cache_inv st1) by (intros _; reflexivity).
  assert (Hstored : stored key d1
                    = Some (default v (stored key (LocalTaskCache.disk st)))).
  { unfold d1. rewrite stored_add, lazy_initialize_stored. reflexivity. }
  assert (Hnoop : forall w, LocalTaskCache.set task_name cache_version inputs w st1
                            = (Ok (), st1)).
  { intros w. rewrite (set_result _ _ _ w st1 Hinv1).
    rewrite lazy_initialize_idem by reflexivity. simpl. fold key.
    rewrite Cache_add_present by (rewrite Hstored; eexists; reflexivity).
    reflexivity. }
  split; [reflexivity|]. split; [apply Hnoop|].
  rewrite (Hnoop v). cbn [fst snd].
  rewrite (get_result _ _ _ st1 Hinv1). cbn [fst snd]. fold key.
  change (LocalTaskCache.disk st1) with d1. rewrite Hstored.
  split; [reflexivity|].
  intros ->. reflexivity.
Qed.

Lemma C6_set_twice_witness :
  (LocalTaskCache.get "add_numbers" "1" [("x", int_literal "3")]
     (LocalTaskCache.set "add_numbers" "1" [("x", int_literal "3")] demo_outputs
        (LocalTaskCache.set "add_numbers" "1" [("x", int_literal "3")] demo_outputs
           (LocalTaskCache.loaded ∅)).2).2).1
  = Ok (Some demo_outputs).
Proof.
  assert (Hinv : cache_inv (LocalTaskCache.loaded ∅)).
  { unfold cache_inv. simpl. intros Hinit. discriminate Hinit. }
  pose proof (C6_set_twice "add_numbers" "1" [("x", int_literal "3")]
                demo_outputs demo_outputs (LocalTaskCache.loaded ∅) Hinv)
    as [_ [_ [_ Hget]]].
  apply Hget. reflexivity.
Defined.

(** A second [set] does not overwrite: the first value stays. *)
Example set_keeps_first_value :
  (LocalTaskCache.get "t" "1" []
     (LocalTaskCache.set "t" "1" [] [("o0", int_literal "2")]
        (LocalTaskCache.set "t" "1" [] [("o0", int_literal "1")]
           (LocalTaskCache.loaded ∅)).2).2).1
  = Ok (Some [("o0", int_literal "1")]).
Proof. vm_compute. reflexivity. Qed.

(** ** The poll loop and the interrupt handler *)

Import AsyncAgentExecutorMixin.

Section Lifecycle.
Context {B : Type} `{AgentBase B}.

Lemma signal_handler_first (meta : string) (w : World B) :
  asynchronous = true -> _clean_up_task w = None ->
  signal_handler meta w
  = (Return (),
     mkWorld (backend w) (remote w) (local w) (heap w) (Some meta) (sigint w)
       (interrupts w) (entropy w) (trace w ++ [EvCreateTask meta])).
Proof.
  intros Hasync Hnone. unfold signal_handler. rewrite Hasync.
  unfold bind, read. rewrite Hnone. reflexivity.
Qed.

Lemma signal_handler_again (meta : string) (w : World B) :
  asynchronous = true -> is_Some (_clean_up_task w) ->
  signal_handler meta w = (Return (), w).
Proof.
  intros Hasync [t Ht]. unfold signal_handler. rewrite Hasync.
  unfold bind, read. rewrite Ht. reflexivity.
Qed.

Lemma signal_handler_sync (meta : string) (w : World B) :
  asynchronous = false ->
  signal_handler meta w
  = (SystemExit 1,
     mkWorld (agent_delete meta (backend w)) (remote w) (local w) (heap w)
       (_clean_up_task w) (sigint w) (interrupts w) (entropy w)
       (trace w ++ [EvDelete meta])).
Proof. intros Hsync. unfold signal_handler. rewrite Hsync. reflexivity. Qed.

(** Interrupts that arrive while a cleanup task is set do nothing. *)
Lemma interrupts_coalesced (meta : string) (n : nat) (w : World B) :
  asynchronous = true -> is_Some (_clean_up_task w) ->
  times n (signal_handler meta) w = (Return (), w).
Proof.
  intros Hasync Hset. induction n as [|n IH]; [reflexivity|].
  simpl. unfold bind at 1. rewrite signal_handler_again by assumption. exact IH.
Qed.

Lemma interrupts_schedule_once (meta : string) (n : nat) (w : World B) :
  asynchronous = true -> _clean_up_task w = None ->
  times (S n) (signal_handler meta) w = signal_handler meta w.
Proof.
  intros Hasync Hnone. simpl. unfold bind at 1.
  rewrite signal_handler_first by assumption.
  apply interrupts_coalesced; [assumption | eexists; reflexivity].
Qed.

(** A round of the loop in which interrupts arrive, with an asynchronous
    backend: one task is scheduled, the poll is made, the task is awaited
    and the process exits. *)
Lemma poll_once_interrupted (meta : string) (n : nat) (rest : list nat) (w : World B) :
  asynchronous = true -> _clean_up_task w = None ->
  sigint w = Some meta -> interrupts w = S n :: rest ->
  poll_once meta w
  = (SystemExit 1,
     mkWorld (agent_delete meta (agent_get meta (backend w)).2) (remote w) (local w)
       (heap w) (Some meta) (Some meta) rest (entropy w)
       (trace w ++ [EvSleep 1; EvCreateTask meta; EvGet meta; EvDelete meta])).
Proof.
  intros Hasync Hnone Hsig Hint. unfold poll_once, sleep.
  unfold bind at 1. unfold bind at 1. cbn [log].
  unfold bind at 1. unfold next_interrupts. cbn [interrupts]. rewrite Hint.
  cbn [hd tl]. unfold bind at 1. unfold read at 1. cbn [sigint]. rewrite Hsig.
  rewrite interrupts_schedule_once by (cbn; assumption).
  rewrite signal_handler_first by (cbn; assumption).
  rewrite Hasync. cbn.
  rewrite <- !app_assoc. reflexivity.
Qed.

(** A round of the loop in which no interrupt arrives. *)
Lemma poll_once_quiet (meta : string) (w : World B) :
  hd 0 (interrupts w) = 0 ->
  (asynchronous = true -> _clean_up_task w = None) ->
  poll_once meta w
  = (Return (agent_get meta (backend w)).1,
     mkWorld (agent_get meta (backend w)).2 (remote w) (local w) (heap w)
       (_clean_up_task w) (sigint w) (tl (interrupts w)) (entropy w)
       (trace w ++ [EvSleep 1; EvGet meta])).
Proof.
  intros Hquiet Hnone. unfold poll_once, sleep.
  unfold bind at 1. unfold bind at 1. cbn [log].
  unfold bind at 1. unfold next_interrupts. cbn [interrupts]. rewrite Hquiet.
  unfold bind at 1. unfold read at 1. cbn [sigint].
  assert (Hsleep : forall w' : World B,
            match sigint w with
            | Some m => times 0 (signal_handler m)
            | None => ret ()
            end w' = (Return (), w')) by (intros w'; destruct (sigint w); reflexivity).
  rewrite Hsleep.
  destruct asynchronous eqn:Hasync; cbn.
  - rewrite (Hnone eq_refl). rewrite <- !app_assoc. reflexivity.
  - rewrite <- !app_assoc. reflexivity.
Qed.

Lemma backend_after_S (n : nat) (meta : string) (b : B) :
  backend_after (S n) meta b = (agent_get meta (backend_after n meta b)).2.
Proof.
  revert b. induction n as [|n IH]; intros b; [reflexivity|].
  change (backend_after (S (S n)) meta b)
    with (backend_after (S n) meta (agent_get meta b).2).
  rewrite IH. reflexivity.
Qed.

Lemma poll_scripted (N : nat) :
  forall (fuel : nat) (meta : string) (st : State) (res : option GetTaskResponse)
         (w : World B),
  is_terminal_state st = false ->
  (forall i, i < N -> state (resource (response i meta (backend w))) = RUNNING) ->
  state (resource (response N meta (backend w))) = SUCCEEDED ->
  Forall (eq 0) (interrupts w) ->
  (asynchronous = true -> _clean_up_task w = None) ->
  N < fuel ->
  poll fuel meta st res w
  = (Return (SUCCEEDED, Some (response N meta (backend w))),
     mkWorld (backend_after (S N) meta (backend w)) (remote w) (local w) (heap w)
       (_clean_up_task w) (sigint w) (drop (S N) (interrupts w)) (entropy w)
       (trace w ++ rounds (S N) meta)).
Proof.
  induction N as [|N IH]; intros fuel meta st res w Hst Hrun Hdone Hquiet Hnone Hfuel.
  - destruct fuel as [|fuel]; [lia|].
    cbn [poll]. rewrite Hst. unfold bind.
    rewrite poll_once_quiet; [|destruct Hquiet; [reflexivity | symmetry; assumption] | exact Hnone].
    unfold response in Hdone. cbn [backend_after] in Hdone.
    destruct fuel; cbn [poll]; rewrite Hdone; cbn [is_terminal_state];
      unfold ret, rounds; cbn; destruct (interrupts w); reflexivity.
  - destruct fuel as [|fuel]; [lia|].
    cbn [poll]. rewrite Hst. unfold bind.
    rewrite poll_once_quiet; [|destruct Hquiet; [reflexivity | symmetry; assumption] | exact Hnone].
    pose proof (Hrun 0 ltac:(lia)) as H0. unfold response in H0. cbn [backend_after] in H0.
    rewrite IH.
    + cbn [backend remote local heap _clean_up_task sigint interrupts entropy trace].
      unfold response.
      assert (Hint : drop (S N) (tail (interrupts w)) = drop (S (S N)) (interrupts w))
        by (destruct (interrupts w); reflexivity).
      rewrite Hint, <- app_assoc. reflexivity.
    + rewrite H0. reflexivity.
    + intros i Hi. cbn [backend]. apply (Hrun (S i)). lia.
    + cbn [backend]. exact Hdone.
    + cbn [interrupts]. destruct Hquiet; [constructor | assumption].
    + cbn [_clean_up_task]. exact Hnone.
    + lia.
Qed.

Lemma for_each_log {A} (f : A -> Event) (xs : list A) (w : World B) :
  for_each xs (fun x => log (f x)) w
  = (Return (),
     mkWorld (backend w) (remote w) (local w) (heap w) (_clean_up_task w) (sigint w)
       (interrupts w) (entropy w) (trace w ++ List.map f xs)).
Proof.
  revert w. induction xs as [|x xs IH]; intros w.
  - cbn. rewrite app_nil_r. destruct w; reflexivity.
  - cbn [for_each]. unfold bind. cbn [log]. rewrite IH. cbn.
    rewrite <- app_assoc. reflexivity.
Qed.
End Lifecycle.

Lemma count_app (p : Event -> bool) (xs ys : list Event) :
  count p (xs ++ ys) = count p xs + count p ys.
Proof. unfold count. rewrite List.filter_app, length_app. reflexivity. Qed.

Lemma count_rounds (n : nat) (meta : string) :
  count is_EvGet (rounds n meta) = n
  /\ count is_EvDelete (rounds n meta) = 0
  /\ count is_EvGetData (rounds n meta) = 0.
Proof.
  induction n as [|n [IH1 [IH2 IH3]]]; [repeat split|].
  unfold rounds in *. cbn [replicate concat].
  rewrite !count_app, IH1, IH2, IH3. repeat split.
Qed.

Lemma count_report (p : Event -> bool) (res : GetTaskResponse) :
  (forall line, p (EvPrint line) = false) -> count p (report res) = 0.
Proof.
  intros Hp. unfold report, count. cbn [List.filter]. rewrite Hp.
  induction (log_links (resource res)) as [|l ls IH]; [reflexivity|].
  cbn [List.map List.filter]. rewrite Hp. exact IH.
Qed.

Section LifecycleClaims.
Context {B : Type} `{AgentBase B}.

(** C4: when the backend answers RUNNING to the first [N] polls and
    SUCCEEDED to the next, and no interrupt arrives, [_get] makes [N+1]
    rounds of a one-second sleep followed by a poll, prints its report and
    returns the last response; enough fuel is any bound above [N]. *)
Theorem C4_poll_until_terminal (N fuel : nat) (meta : string) (w : World B) :
  (forall i, i < N -> state (resource (response i meta (backend w))) = RUNNING) ->
  state (resource (response N meta (backend w))) = SUCCEEDED ->
  Forall (eq 0) (interrupts w) ->
  (asynchronous = true -> _clean_up_task w = None) ->
  N < fuel ->
  _get fuel meta w
  = (Return (response N meta (backend w)),
     mkWorld (backend_after (S N) meta (backend w)) (remote w) (local w) (heap w)
       (_clean_up_task w) (sigint w) (drop (S N) (interrupts w)) (entropy w)
       (trace w ++ rounds (S N) meta ++ report (response N meta (backend w))))
  /\ count is_EvGet (rounds (S N) meta ++ report (response N meta (backend w))) = S N.
Proof.
  intros Hrun Hdone Hquiet Hnone Hfuel. split.
  - unfold _get. unfold bind at 1.
    rewrite (poll_scripted N fuel meta RUNNING None w) by (assumption || reflexivity).
    cbn [fst snd]. unfold bind at 1. cbn [log]. unfold bind at 1.
    rewrite for_each_log. cbn. unfold ret, report. rewrite Hdone.
    rewrite <- !app_assoc. reflexivity.
  - rewrite count_app. destruct (count_rounds (S N) meta) as [-> _].
    rewrite count_report by reflexivity. lia.
Qed.

(** C3: with an asynchronous backend, any number of interrupts schedules
    one cleanup task, and a round of the poll loop in which they arrive
    issues one delete and exits with status 1; interrupts that arrive while
    a task is set do nothing.  With a synchronous backend the handler
    issues the delete itself and exits with status 1. *)
Theorem C3_one_cleanup_per_handle (meta : string) (n : nat) (rest : list nat)
    (w : World B) :
  (asynchronous = true -> _clean_up_task w = None ->
     times (S n) (signal_handler meta) w
     = (Return (),
        mkWorld (backend w) (remote w) (local w) (heap w) (Some meta) (sigint w)
          (interrupts w) (entropy w) (trace w ++ [EvCreateTask meta]))
     /\ (sigint w = Some meta -> interrupts w = S n :: rest ->
         poll_once meta w
         = (SystemExit 1,
            mkWorld (agent_delete meta (agent_get meta (backend w)).2) (remote w)
              (local w) (heap w) (Some meta) (Some meta) rest (entropy w)
              (trace w ++ [EvSleep 1; EvCreateTask meta; EvGet meta; EvDelete meta]))))
  /\ (asynchronous = true -> is_Some (_clean_up_task w) ->
      times n (signal_handler meta) w = (Return (), w))
  /\ (asynchronous = false ->
      signal_handler meta w
      = (SystemExit 1,
         mkWorld (agent_delete meta (backend w)) (remote w) (local w) (heap w)
           (_clean_up_task w) (sigint w) (interrupts w) (entropy w)
           (trace w ++ [EvDelete meta]))).
Proof.
  split; [|split].
  - intros Hasync Hnone. split.
    + rewrite interrupts_schedule_once by assumption.
      apply signal_handler_first; assumption.
    + intros Hsig Hint. apply (poll_once_interrupted meta n rest w); assumption.
  - apply interrupts_coalesced.
  - apply signal_handler_sync.
Qed.
End LifecycleClaims.

Lemma C4_poll_until_terminal_witness :
  (_get (H := async_agent) 5 "job" (polling_world [RUNNING; RUNNING; SUCCEEDED] [])).1
  = Return (answer SUCCEEDED [])
  /\ count is_EvGet
       (trace (_get (H := async_agent) 5 "job"
                 (polling_world [RUNNING; RUNNING; SUCCEEDED] [])).2) = 3.
Proof.
  destruct (C4_poll_until_terminal (H := async_agent) 2 5 "job"
              (polling_world [RUNNING; RUNNING; SUCCEEDED] [])) as [Hget _].
  - intros i Hi. destruct i as [|[|i]]; [reflexivity | reflexivity | lia].
  - reflexivity.
  - constructor.
  - reflexivity.
  - lia.
  - rewrite Hget. split; reflexivity.
Defined.

Lemma C3_one_cleanup_per_handle_witness :
  (poll_once (H := async_agent) "job" (polling_world [RUNNING] [2])).1 = SystemExit 1
  /\ count is_EvDelete
       (trace (poll_once (H := async_agent) "job" (polling_world [RUNNING] [2])).2) = 1
  /\ count is_EvCreateTask
       (trace (poll_once (H := async_agent) "job" (polling_world [RUNNING] [2])).2) = 1
  /\ (signal_handler (H := sync_agent) "job" (polling_world [RUNNING] [])).1 = SystemExit 1
  /\ trace (signal_handler (H := sync_agent) "job" (polling_world [RUNNING] [])).2
     = [EvDelete "job"].
Proof.
  destruct (C3_one_cleanup_per_handle (H := async_agent) "job" 1 []
              (polling_world [RUNNING] [2])) as [Hasync _].
  destruct (Hasync eq_refl eq_refl) as [_ Hpoll].
  rewrite (Hpoll eq_refl eq_refl).
  destruct (C3_one_cleanup_per_handle (H := sync_agent) "job" 0 []
              (polling_world [RUNNING] [])) as [_ [_ Hsync]].
  rewrite (Hsync eq_refl).
  repeat split.
Defined.

(** ** What [execute] reads and returns *)

Lemma bind_Return {B A A'} (c : M B A) (k : A -> M B A') (w w' : World B) (b : A') :
  bind c k w = (Return b, w') ->
  exists a w1, c w = (Return a, w1) /\ k a w1 = (Return b, w').
Proof.
  unfold bind. destruct (c w) as [[a|e|code|] w1]; intros Heq; try discriminate.
  exists a, w1. split; [reflexivity | exact Heq].
Qed.

Create HintDb staging.

Section Staging.
Context {B : Type} `{AgentBase B} `{Runtime}.
Variable _entity : PythonTask.

Lemma quiet_bind {A A'} (c : M B A) (k : A -> M B A') :
  no_staging_read c -> (forall a, no_staging_read (k a)) -> no_staging_read (bind c k).
Proof.
  intros Hc Hk w. unfold bind. specialize (Hc w).
  destruct (c w) as [[a|e|code|] w1]; cbn [snd] in *; try exact Hc.
  rewrite (Hk a w1). exact Hc.
Qed.

Lemma quiet_ret {A} (a : A) : no_staging_read (B := B) (ret a).
Proof. intros w. reflexivity. Qed.

Lemma quiet_raise {A} (e : Exception) : no_staging_read (B := B) (A := A) (raise e).
Proof. intros w. reflexivity. Qed.

Lemma quiet_sys_exit {A} (code : Z) : no_staging_read (B := B) (A := A) (sys_exit code).
Proof. intros w. reflexivity. Qed.

Lemma quiet_out_of_fuel {A} : no_staging_read (B := B) (A := A) out_of_fuel.
Proof. intros w. reflexivity. Qed.

Lemma quiet_log (e : Event) : is_EvGetData e = false -> no_staging_read (B := B) (log e).
Proof.
  intros He w. cbn. rewrite List.filter_app. cbn. rewrite He. apply app_nil_r.
Qed.

Lemma quiet_on_backend {A} (f : B -> A * B) : no_staging_read (on_backend f).
Proof. intros w. reflexivity. Qed.

Lemma quiet_read {A} (f : World B -> A) : no_staging_read (read f).
Proof. intros w. reflexivity. Qed.

Lemma quiet_set_remote path f : no_staging_read (B := B) (set_remote path f).
Proof. intros w. reflexivity. Qed.

Lemma quiet_set_local path f : no_staging_read (B := B) (set_local path f).
Proof. intros w. reflexivity. Qed.

Lemma quiet_set_heap h : no_staging_read (B := B) (set_heap h).
Proof. intros w. reflexivity. Qed.

Lemma quiet_set_clean_up_task t : no_staging_read (B := B) (set_clean_up_task t).
Proof. intros w. reflexivity. Qed.

Lemma quiet_set_sigint h : no_staging_read (B := B) (set_sigint h).
Proof. intros w. reflexivity. Qed.

Lemma quiet_next_interrupts : no_staging_read (B := B) next_interrupts.
Proof. intros w. reflexivity. Qed.

Lemma quiet_draw : no_staging_read (B := B) draw.
Proof. intros w. reflexivity. Qed.

Lemma quiet_for_each {A} (xs : list A) (body : A -> M B unit) :
  (forall x, no_staging_read (body x)) -> no_staging_read (for_each xs body).
Proof.
  intros Hbody. induction xs as [|x xs IH]; cbn [for_each].
  - apply quiet_ret.
  - apply quiet_bind; [apply Hbody | intros _; exact IH].
Qed.

Lemma quiet_times (n : nat) (c : M B unit) :
  no_staging_read c -> no_staging_read (times n c).
Proof.
  intros Hc. induction n as [|n IH]; cbn [times].
  - apply quiet_ret.
  - apply quiet_bind; [exact Hc | intros _; exact IH].
Qed.

Hint Resolve quiet_ret quiet_raise quiet_sys_exit quiet_out_of_fuel quiet_on_backend
  quiet_read quiet_set_remote quiet_set_local quiet_set_heap quiet_set_clean_up_task
  quiet_set_sigint quiet_next_interrupts quiet_draw : staging.

Ltac quiet :=
  repeat first
    [ solve [auto with staging]
    | apply quiet_log; reflexivity
    | apply quiet_bind; [|intros ?]
    | apply quiet_for_each; intros ?
    | apply quiet_times
    | match goal with
      | |- no_staging_read (match ?x with _ => _ end) => destruct x
      | |- no_staging_read (if ?x then _ else _) => destruct x
      end ].

Lemma quiet_signal_handler (meta : string) : no_staging_read (signal_handler meta).
Proof. unfold signal_handler. quiet. Qed.
Hint Resolve quiet_signal_handler : staging.

Lemma quiet_sleep (seconds : nat) : no_staging_read (sleep seconds).
Proof. unfold sleep. quiet. Qed.
Hint Resolve quiet_sleep : staging.

Lemma quiet_poll_once (meta : string) : no_staging_read (poll_once meta).
Proof. unfold poll_once, await_clean_up_task. quiet. Qed.
Hint Resolve quiet_poll_once : staging.

Lemma quiet_poll (fuel : nat) (meta : string) (st : State) (res : option GetTaskResponse) :
  no_staging_read (poll fuel meta st res).
Proof.
  revert st res. induction fuel as [|fuel IH]; intros st res; cbn [poll].
  - quiet.
  - destruct (is_terminal_state st); [quiet|].
    apply quiet_bind; [apply quiet_poll_once | intros r; apply IH].
Qed.

Lemma quiet_get (fuel : nat) (meta : string) : no_staging_read (_get fuel meta).
Proof. unfold _get. apply quiet_bind; [apply quiet_poll | intros r]. quiet. Qed.

Lemma quiet_create (task_template : TaskTemplate) (output_prefix : string) (inputs : nat) :
  no_staging_read (_create _entity task_template output_prefix inputs).
Proof. unfold _create, inputs_or_new, setitem, convert. quiet. Qed.
Hint Resolve quiet_create : staging.

Lemma quiet_submit (kwargs : dict PyValue) : no_staging_read (submit _entity kwargs).
Proof. unfold submit. quiet. Qed.
End Staging.

Section Execute.
Context {B : Type} `{AgentBase B} `{Runtime}.
Variable _entity : PythonTask.

(** When [_create] returns, the agent's create has been called with the
    output prefix that [_create] was given. *)
Lemma create_logs_prefix (task_template : TaskTemplate) (output_prefix : string)
    (inputs : nat) (w w' : World B) (res : CreateTaskResponse) :
  _create _entity task_template output_prefix inputs w = (Return res, w') ->
  exists literal_map, EvCreate output_prefix literal_map ∈ trace w'.
Proof.
  unfold _create. intros Hc.
  apply bind_Return in Hc as (literals & wa & _ & Hc).
  apply bind_Return in Hc as (items & wb & _ & Hc).
  apply bind_Return in Hc as (u & wc & _ & Hc).
  apply bind_Return in Hc as (d & wd & _ & Hc).
  destruct (as_literals d) as [literal_map|]; [|discriminate Hc].
  apply bind_Return in Hc as (rendered & we & _ & Hc).
  cbn in Hc. injection Hc as _ <-. cbn [trace].
  exists literal_map. rewrite !elem_of_app. left. right. apply list_elem_of_singleton.
  reflexivity.
Qed.

Lemma submit_Return (kwargs : dict PyValue) (w w1 : World B) (prefix : string)
    (res : CreateTaskResponse) :
  submit _entity kwargs w = (Return (prefix, res), w1) ->
  prefix = random_remote_directory (entropy w)
  /\ exists literal_map, EvCreate prefix literal_map ∈ trace w1.
Proof.
  unfold submit. intros Hs.
  apply bind_Return in Hs as (n & wa & Hn & Hs).
  apply bind_Return in Hs as (h & wb & _ & Hs).
  apply bind_Return in Hs as (u & wc & _ & Hs).
  apply bind_Return in Hs as (r & wd & Hc & Hs).
  cbn in Hn. injection Hn as <- _.
  cbn in Hs. injection Hs as <- _ <-.
  split; [reflexivity|]. exact (create_logs_prefix _ _ _ _ _ _ Hc).
Qed.

(** C5: when the state that [create] returned at once, or the state of the
    response that ended the poll loop, is not SUCCEEDED, [execute] raises
    "Failed to run the task" with the name of the task, in the world as the
    response left it: nothing is read from the staging location and no
    output set is returned. *)
Theorem C5_failure_raises (fuel : nat) (kwargs : dict PyValue) (w w1 w2 : World B)
    (prefix : string) (res : CreateTaskResponse) :
  submit _entity kwargs w = (Return (prefix, res), w1) ->
  ((exists r, res = with_resource r /\ state r <> SUCCEEDED /\ w2 = w1)
   \/ (exists meta res',
         res = with_resource_meta meta
         /\ _get fuel meta w1 = (Return res', w2)
         /\ state (resource res') <> SUCCEEDED)) ->
  execute _entity fuel kwargs w
  = (Raise (FlyteUserException ("Failed to run the task " +:+ name _entity)), w2)
  /\ List.filter is_EvGetData (trace w2) = List.filter is_EvGetData (trace w).
Proof.
  intros Hsubmit Hfailed.
  pose proof (quiet_submit _entity kwargs w) as Hquiet. rewrite Hsubmit in Hquiet.
  cbn [snd] in Hquiet.
  unfold execute. unfold bind at 1. rewrite Hsubmit. cbn [fst snd].
  destruct Hfailed as [(r & -> & Hstate & ->) | (meta & res' & -> & Hget & Hstate)].
  - cbn [HasField_resource]. destruct (decide (state r = SUCCEEDED)); [contradiction|].
    split; [reflexivity | exact Hquiet].
  - cbn [HasField_resource resource_meta]. unfold bind at 1. rewrite Hget.
    destruct (decide (state (resource res') = SUCCEEDED)); [contradiction|].
    split; [reflexivity|].
    pose proof (quiet_get fuel meta w1) as Hquiet'. rewrite Hget in Hquiet'.
    cbn [snd] in Hquiet'. rewrite Hquiet'. exact Hquiet.
Qed.

(** C2: when the poll loop ends in SUCCEEDED with no output literal and the
    interface declares an output, [execute] reads the file
    [<output_prefix>/output/outputs.pb], under the prefix that the create
    call was given, and returns what the file holds; when the file is
    missing the read raises. *)
Theorem C2_output_fallback (fuel : nat) (kwargs : dict PyValue) (w w1 w2 : World B)
    (prefix meta : string) (res : GetTaskResponse) :
  submit _entity kwargs w = (Return (prefix, with_resource_meta meta), w1) ->
  _get fuel meta w1 = (Return res, w2) ->
  state (resource res) = SUCCEEDED ->
  interface_outputs (template _entity) <> [] ->
  outputs (resource res) = [] ->
  prefix = random_remote_directory (entropy w)
  /\ (exists literal_map, EvCreate prefix literal_map ∈ trace w1)
  /\ match remote w2 !! (prefix +:+ "/output/outputs.pb") with
     | Some staged =>
         execute _entity fuel kwargs w
         = (Return staged,
            mkWorld (backend w2) (remote w2)
              (<[random_local_path (entropy w2) := staged]> (local w2)) (heap w2)
              (_clean_up_task w2) (sigint w2) (interrupts w2) (S (entropy w2))
              (trace w2 ++ [EvGetData (prefix +:+ "/output/outputs.pb")
                              (random_local_path (entropy w2))]))
     | None =>
         (execute _entity fuel kwargs w).1
         = Raise (FileNotFoundError (prefix +:+ "/output/outputs.pb"))
     end.
Proof.
  intros Hsubmit Hget Hstate Hdeclared Hempty.
  destruct (submit_Return _ _ _ _ _ Hsubmit) as [Hprefix Hcreate].
  split; [exact Hprefix|]. split; [exact Hcreate|].
  assert (Hexec :
    execute _entity fuel kwargs w
    = (do n <- draw;
       get_data (prefix +:+ "/output/outputs.pb") (random_local_path n) ;;
       load_proto_from_file (random_local_path n)) w2).
  { unfold execute. unfold bind at 1. rewrite Hsubmit. cbn [fst snd].
    cbn [HasField_resource resource_meta]. unfold bind at 1. rewrite Hget.
    destruct (decide (state (resource res) = SUCCEEDED)); [|contradiction].
    rewrite Hempty.
    destruct (interface_outputs (template _entity)) as [|declared others];
      [contradiction | reflexivity]. }
  rewrite Hexec.
  unfold get_data, load_proto_from_file, bind, draw, log, read. cbn.
  destruct (remote w2 !! (prefix +:+ "/output/outputs.pb")) as [staged|] eqn:Hfile.
  - cbn. rewrite lookup_insert_eq. reflexivity.
  - reflexivity.
Qed.
End Execute.

Lemma C2_output_fallback_witness :
  (execute (H := async_agent) demo_task 5 [("x", Native "3")]
     (demo_world [RUNNING; SUCCEEDED] []
        {["s3://bucket/0/output/outputs.pb" := demo_outputs]})).1
  = Return demo_outputs.
Proof.
  pose (w := demo_world [RUNNING; SUCCEEDED] []
               {["s3://bucket/0/output/outputs.pb" := demo_outputs]}).
  pose (w1 := (submit (H := async_agent) demo_task [("x", Native "3")] w).2).
  pose (w2 := (_get (H := async_agent) 5 "job" w1).2).
  destruct (C2_output_fallback (H := async_agent) demo_task 5 [("x", Native "3")]
              w w1 w2 "s3://bucket/0" "job" (answer SUCCEEDED []))
    as (_ & _ & Hexec).
  - vm_compute. reflexivity.
  - vm_compute. reflexivity.
  - reflexivity.
  - discriminate.
  - reflexivity.
  - assert (Hfile : remote w2 !! ("s3://bucket/0" +:+ "/output/outputs.pb")
                    = Some demo_outputs) by (vm_compute; reflexivity).
    rewrite Hfile in Hexec. fold w. rewrite Hexec. reflexivity.
Defined.

Lemma C5_failure_raises_witness :
  (execute (H := async_agent) demo_task 5 [("x", Native "3")]
     (demo_world [RUNNING; PERMANENT_FAILURE] []
        {["s3://bucket/0/output/outputs.pb" := demo_outputs]})).1
  = Raise (FlyteUserException "Failed to run the task add_numbers").
Proof.
  pose (w := demo_world [RUNNING; PERMANENT_FAILURE] []
               {["s3://bucket/0/output/outputs.pb" := demo_outputs]}).
  pose (w1 := (submit (H := async_agent) demo_task [("x", Native "3")] w).2).
  pose (w2 := (_get (H := async_agent) 5 "job" w1).2).
  destruct (C5_failure_raises (H := async_agent) demo_task 5 [("x", Native "3")]
              w w1 w2 "s3://bucket/0" (with_resource_meta "job"))
    as [Hexec _].
  - vm_compute. reflexivity.
  - right. exists "job", (answer PERMANENT_FAILURE []).
    split; [reflexivity|]. split; [vm_compute; reflexivity | discriminate].
  - fold w. rewrite Hexec. reflexivity.
Defined.

(** ** The inputs of [_create] *)

Lemma dict_set_fresh_prefix {V} (done rest : dict V) (k : string) (v v' : V) :
  k ∉ done.*1 ->
  dict_set (done ++ (k, v) :: rest) k v' = done ++ (k, v') :: rest.
Proof.
  induction done as [|[k0 v0] done IH]; intros Hfresh; cbn.
  - destruct (decide (k = k)); [reflexivity | contradiction].
  - rewrite fmap_cons in Hfresh. apply not_elem_of_cons in Hfresh as [Hne Hfresh].
    cbn in Hne. destruct (decide (k0 = k)); [congruence|].
    rewrite IH by assumption. reflexivity.
Qed.

Lemma of_literals_keys (literal_map : LiteralMap) :
  (of_literals literal_map).*1 = literal_map.*1.
Proof.
  induction literal_map as [|[k l] lm IH]; [reflexivity|].
  cbn. rewrite <- IH. reflexivity.
Qed.

Lemma of_literals_app (l1 l2 : LiteralMap) :
  of_literals (l1 ++ l2) = of_literals l1 ++ of_literals l2.
Proof. unfold of_literals. apply List.map_app. Qed.

Lemma of_literals_no_native (literal_map : LiteralMap) (k repr : string) :
  (k, Native repr) ∉ of_literals literal_map.
Proof.
  induction literal_map as [|[k0 l0] lm IH]; cbn.
  - apply not_elem_of_nil.
  - apply not_elem_of_cons. split; [discriminate | exact IH].
Qed.

Section Inputs.
Context {B : Type} `{AgentBase B} `{Runtime}.
Variable _entity : PythonTask.

Lemma as_literals_of_literals (literal_map : LiteralMap) :
  as_literals (of_literals literal_map) = Some literal_map.
Proof.
  induction literal_map as [|[k l] lm IH]; [reflexivity|].
  cbn. unfold of_literals in IH. rewrite IH. reflexivity.
Qed.

Lemma to_literals_keys (items : dict PyValue) (literal_map : LiteralMap) :
  to_literals (interface_inputs _entity) items = Some literal_map ->
  literal_map.*1 = items.*1.
Proof.
  revert literal_map. induction items as [|[k v] items IH]; intros lm Hconv; cbn in Hconv.
  - injection Hconv as <-. reflexivity.
  - destruct (dict_get (interface_inputs _entity) k) as [ty|]; [|discriminate].
    destruct (to_literal v ty) as [l|]; [|discriminate].
    destruct (to_literals (interface_inputs _entity) items) as [lm'|]; [|discriminate].
    injection Hconv as <-. cbn. rewrite (IH lm' eq_refl). reflexivity.
Qed.

(** [inputs or {}] is [inputs] itself when the dictionary has an item. *)
Lemma inputs_or_new_alias (inputs : nat) (d : dict PyValue) (w : World B) :
  heap w !! inputs = Some d -> d <> [] -> inputs_or_new inputs w = (Return inputs, w).
Proof.
  intros Hd Hne. unfold inputs_or_new, bind, read. cbn. rewrite Hd. cbn.
  destruct d; [contradiction | reflexivity].
Qed.

(** One round of the loop of [_create]. *)
Lemma convert_one (literals : nat) (k : string) (v : PyValue) (ty : LiteralType)
    (l : Literal) (d : dict PyValue) (w : World B) :
  dict_get (interface_inputs _entity) k = Some ty -> to_literal v ty = Some l ->
  heap w !! literals = Some d ->
  (do l <- convert _entity k v; setitem literals k (OfLiteral l)) w
  = (Return (),
     mkWorld (backend w) (remote w) (local w)
       (<[literals := dict_set d k (OfLiteral l)]> (heap w))
       (_clean_up_task w) (sigint w) (interrupts w) (entropy w) (trace w)).
Proof.
  intros Hty Hl Hheap. unfold convert, setitem, bind, read, ret. rewrite Hty, Hl.
  cbn. rewrite Hheap. reflexivity.
Qed.

(** The loop of [_create], when [literals] is [inputs]: each round replaces
    the value of the key of its item, in place. *)
Lemma convert_in_place (inputs : nat) (rest : dict PyValue) :
  forall (done rest_map : LiteralMap) (w : World B),
  to_literals (interface_inputs _entity) rest = Some rest_map ->
  heap w !! inputs = Some (of_literals done ++ rest) ->
  NoDup (of_literals done ++ rest).*1 ->
  for_each rest
    (fun kv => do l <- convert _entity kv.1 kv.2; setitem inputs kv.1 (OfLiteral l)) w
  = (Return (),
     mkWorld (backend w) (remote w) (local w)
       (<[inputs := of_literals (done ++ rest_map)]> (heap w))
       (_clean_up_task w) (sigint w) (interrupts w) (entropy w) (trace w)).
Proof.
  induction rest as [|[k v] rest IH]; intros done rest_map w Hconv Hheap Hnodup.
  - cbn in Hconv. injection Hconv as <-. cbn. rewrite app_nil_r in *.
    rewrite insert_id by exact Hheap. destruct w; reflexivity.
  - cbn in Hconv.
    destruct (dict_get (interface_inputs _entity) k) as [ty|] eqn:Hty; [|discriminate].
    destruct (to_literal v ty) as [l|] eqn:Hl; [|discriminate].
    destruct (to_literals (interface_inputs _entity) rest) as [lm'|] eqn:Hrest;
      [|discriminate].
    injection Hconv as <-.
    cbn [for_each]. unfold bind at 1. cbn [fst snd].
    rewrite (convert_one inputs k v ty l _ w Hty Hl Hheap).
    assert (Hfresh : k ∉ (of_literals done).*1).
    { rewrite fmap_app in Hnodup. apply NoDup_app in Hnodup as (_ & Hdisj & _).
      intros Hin. apply (Hdisj k Hin). rewrite fmap_cons. left. }
    rewrite dict_set_fresh_prefix by exact Hfresh.
    rewrite (IH (done ++ [(k, l)]) lm').
    + cbn [backend remote local heap _clean_up_task sigint interrupts entropy trace].
      rewrite insert_insert_eq, <- app_assoc. reflexivity.
    + reflexivity.
    + cbn [heap]. rewrite lookup_insert_eq, of_literals_app, <- app_assoc. reflexivity.
    + rewrite of_literals_app, <- app_assoc. cbn.
      rewrite !fmap_app in *. exact Hnodup.
Qed.

(** C10: when the dictionary behind [inputs] has an item and every value
    converts, [_create] returns, [literals] is [inputs], and the dictionary
    of the caller then holds under each of its keys the converted literal:
    none of the native values is left, and what the agent is given is what
    the dictionary holds. *)
Theorem C10_create_mutates_inputs (task_template : TaskTemplate) (output_prefix : string)
    (inputs : nat) (d : dict PyValue) (literal_map : LiteralMap) (w : World B) :
  heap w !! inputs = Some d -> d <> [] -> NoDup d.*1 ->
  to_literals (interface_inputs _entity) d = Some literal_map ->
  inputs_or_new inputs w = (Return inputs, w)
  /\ (exists res,
        (_create _entity task_template output_prefix inputs w).1 = Return res)
  /\ heap (_create _entity task_template output_prefix inputs w).2 !! inputs
     = Some (of_literals literal_map)
  /\ (of_literals literal_map).*1 = d.*1
  /\ (forall k repr, (k, Native repr) ∉ of_literals literal_map)
  /\ EvCreate output_prefix literal_map
     ∈ trace (_create _entity task_template output_prefix inputs w).2.
Proof.
  intros Hd Hne Hnodup Hconv.
  pose proof (inputs_or_new_alias inputs d w Hd Hne) as Halias.
  split; [exact Halias|].
  assert (Hloop := convert_in_place inputs d [] literal_map w Hconv Hd Hnodup).
  cbn [app] in Hloop.
  assert (Hcreate :
    _create _entity task_template output_prefix inputs w
    = (do task_template <-
         (if is_PythonFunctionTask _entity then
            do n <- draw;
            let path := random_local_path n in
            set_local path literal_map ;;
            log (EvPutData path (output_prefix +:+ "/inputs.pb")) ;;
            set_remote (output_prefix +:+ "/inputs.pb") literal_map ;;
            ret (render_task_template task_template output_prefix)
          else ret task_template);
       log (EvCreate output_prefix literal_map) ;;
       do res <- on_backend (agent_create output_prefix task_template literal_map);
       log (EvSignal (resource_meta res)) ;;
       set_sigint (Some (resource_meta res)) ;;
       ret res)
        (mkWorld (backend w) (remote w) (local w)
           (<[inputs := of_literals literal_map]> (heap w))
           (_clean_up_task w) (sigint w) (interrupts w) (entropy w) (trace w))).
  { unfold _create. unfold bind at 1. rewrite Halias.
    unfold bind at 1. unfold read at 1. rewrite Hd. cbn [from_option id].
    unfold bind at 1. rewrite Hloop.
    unfold bind at 1. unfold read at 1. cbn [heap].
    rewrite lookup_insert_eq. cbn [from_option id].
    rewrite as_literals_of_literals. reflexivity. }
  rewrite Hcreate. clear Hcreate Hloop.
  split; [|split; [|split; [|split]]].
  - destruct (is_PythonFunctionTask _entity); eexists; reflexivity.
  - destruct (is_PythonFunctionTask _entity).
    + change (<[inputs := of_literals literal_map]> (heap w) !! inputs
              = Some (of_literals literal_map)).
      apply lookup_insert_eq.
    + change (<[inputs := of_literals literal_map]> (heap w) !! inputs
              = Some (of_literals literal_map)).
      apply lookup_insert_eq.
  - rewrite of_literals_keys. apply to_literals_keys, Hconv.
  - apply of_literals_no_native.
  - destruct (is_PythonFunctionTask _entity).
    + change (EvCreate output_prefix literal_map
              ∈ ((trace w ++ [EvPutData (random_local_path (entropy w))
                                (output_prefix +:+ "/inputs.pb")])
                 ++ [EvCreate output_prefix literal_map])
                ++ [EvSignal
                      (resource_meta
                         (agent_create output_prefix
                            (render_task_template task_template output_prefix)
                            literal_map (backend w)).1)]).
      rewrite !elem_of_app. left. right. apply list_elem_of_singleton. reflexivity.
    + change (EvCreate output_prefix literal_map
              ∈ (trace w ++ [EvCreate output_prefix literal_map])
                ++ [EvSignal
                      (resource_meta
                         (agent_create output_prefix task_template literal_map
                            (backend w)).1)]).
      rewrite !elem_of_app. left. right. apply list_elem_of_singleton. reflexivity.
Qed.
End Inputs.

Lemma C10_create_mutates_inputs_witness :
  heap (_create (H := async_agent) demo_task (template demo_task) "s3://bucket/0" 7
          (kwargs_world [("x", Native "3"); ("y", Native "4")])).2 !! 7
  = Some [("x", OfLiteral (int_literal "3")); ("y", OfLiteral (int_literal "4"))].
Proof.
  destruct (C10_create_mutates_inputs (H := async_agent) demo_task (template demo_task)
              "s3://bucket/0" 7 [("x", Native "3"); ("y", Native "4")]
              [("x", int_literal "3"); ("y", int_literal "4")]
              (kwargs_world [("x", Native "3"); ("y", Native "4")]))
    as (_ & _ & Hheap & _).
  - reflexivity.
  - discriminate.
  - cbn. apply NoDup_cons. split; [|apply NoDup_singleton].
    intros Hin. apply list_elem_of_singleton in Hin. discriminate.
  - reflexivity.
  - exact Hheap.
Defined.

(** * Further properties *)

(** ** The canonical form *)

(** Induction on a literal, with the property on every child. *)
Lemma Literal_ind' (P : Literal -> Prop) :
  (forall s c m h md,
     (forall ls, c = Some ls -> Forall P ls) ->
     (forall kvs, m = Some kvs -> Forall (fun kv => P kv.2) kvs) ->
     P (mkLiteral s c m h md)) ->
  forall l, P l.
Proof.
  intros Hstep. fix IH 1. intros [s c m h md]. apply Hstep.
  - intros ls Hc. destruct c as [ls0|]; [|discriminate Hc]. injection Hc as <-.
    induction ls0 as [|a ls0 IHls]; constructor; [apply IH | exact IHls].
  - intros kvs Hm. destruct m as [kvs0|]; [|discriminate Hm]. injection Hm as <-.
    induction kvs0 as [|[k a] kvs0 IHkvs]; constructor; [apply IH | exact IHkvs].
Qed.

Lemma dict_set_fresh {V} (d : dict V) (k : string) (v : V) :
  k ∉ d.*1 -> dict_set d k v = d ++ [(k, v)].
Proof.
  induction d as [|[k0 v0] d IH]; intros Hfresh; cbn; [reflexivity|].
  rewrite fmap_cons in Hfresh. apply not_elem_of_cons in Hfresh as [Hne Hfresh].
  cbn in Hne. destruct (decide (k0 = k)); [congruence|].
  rewrite IH by assumption. reflexivity.
Qed.

Lemma dict_set_keys {V} (d : dict V) (k : string) (v : V) :
  (dict_set d k v).*1 = if decide (k ∈ d.*1) then d.*1 else d.*1 ++ [k].
Proof.
  induction d as [|[k0 v0] d IH]; cbn.
  - destruct (decide (k ∈ [])) as [Hin|_]; [inversion Hin | reflexivity].
  - destruct (decide (k0 = k)) as [->|Hne]; cbn.
    + destruct (decide (k ∈ k :: d.*1)) as [_|Hout]; [reflexivity|].
      exfalso. apply Hout. left.
    + rewrite IH. destruct (decide (k ∈ d.*1)) as [Hin|Hout].
      * destruct (decide (k ∈ k0 :: d.*1)) as [_|Hout']; [reflexivity|].
        exfalso. apply Hout'. right. exact Hin.
      * destruct (decide (k ∈ k0 :: d.*1)) as [Hin'|_]; [|reflexivity].
        apply elem_of_cons in Hin' as [->|Hin']; [congruence | contradiction].
Qed.

(** Assigning to a key keeps the keys of a dictionary distinct. *)
Lemma dict_set_NoDup {V} (d : dict V) (k : string) (v : V) :
  NoDup d.*1 -> NoDup (dict_set d k v).*1.
Proof.
  intros Hnd. rewrite dict_set_keys. destruct (decide (k ∈ d.*1)) as [Hin|Hout].
  - exact Hnd.
  - apply NoDup_app. split; [exact Hnd|]. split; [|apply NoDup_singleton].
    intros x Hx Hk. apply list_elem_of_singleton in Hk as ->. contradiction.
Qed.

Lemma dict_set_Forall {V} (Q : string * V -> Prop) (d : dict V) (k : string) (v : V) :
  Forall Q d -> Q (k, v) -> Forall Q (dict_set d k v).
Proof.
  intros Hd Hv. induction Hd as [|[k0 v0] d Hx Hd IH]; cbn.
  - constructor; [exact Hv | constructor].
  - destruct (decide (k0 = k)) as [->|Hne]; constructor; assumption.
Qed.

Section Overridden.
Variable f : Literal -> Literal.

Lemma foldl_dict_set_invariant (Q : string * Literal -> Prop) (items acc : dict Literal) :
  NoDup acc.*1 -> Forall Q acc -> Forall (fun kv => Q (kv.1, f kv.2)) items ->
  NoDup (foldl (fun d kv => dict_set d kv.1 (f kv.2)) acc items).*1
  /\ Forall Q (foldl (fun d kv => dict_set d kv.1 (f kv.2)) acc items).
Proof.
  revert acc. induction items as [|[k v] items IH]; intros acc Hnd Hacc Hitems; cbn.
  - split; assumption.
  - apply Forall_cons in Hitems as [Hv Hitems]. apply IH.
    + apply dict_set_NoDup, Hnd.
    + apply dict_set_Forall; assumption.
    + exact Hitems.
Qed.

(** Over items with distinct keys, none of them in the dictionary yet, the
    loop appends the items in their order. *)
Lemma foldl_dict_set_distinct (items acc : dict Literal) :
  NoDup (acc.*1 ++ items.*1) ->
  foldl (fun d kv => dict_set d kv.1 (f kv.2)) acc items
  = acc ++ List.map (fun kv => (kv.1, f kv.2)) items.
Proof.
  revert acc. induction items as [|[k v] items IH]; intros acc Hnd; cbn.
  - rewrite app_nil_r. reflexivity.
  - rewrite dict_set_fresh.
    + rewrite IH.
      * rewrite <- app_assoc. reflexivity.
      * rewrite fmap_app, <- app_assoc. exact Hnd.
    + apply NoDup_app in Hnd as (_ & Hdisj & _). intros Hin.
      apply (Hdisj k Hin). rewrite fmap_cons. left.
Qed.
End Overridden.

(** X2: on a map whose keys are distinct, [_recursive_hash_placement] keeps
    the keys and their order and puts each value in canonical form; the same
    holds for the dictionary that [_calculate_cache_key] builds. *)
Theorem X2_placement_keeps_keys (s : option PyObj) (m : dict Literal)
    (h : option string) (md : option (dict string)) :
  NoDup m.*1 ->
  _recursive_hash_placement (mkLiteral s None (Some m) h md)
  = Literal_of_map (List.map (fun kv => (kv.1, _recursive_hash_placement kv.2)) m)
  /\ literal_map_overridden m
     = List.map (fun kv => (kv.1, _recursive_hash_placement kv.2)) m
  /\ (literal_map_overridden m).*1 = m.*1.
Proof.
  intros Hnd.
  assert (Heq : literal_map_overridden m
                = List.map (fun kv => (kv.1, _recursive_hash_placement kv.2)) m).
  { unfold literal_map_overridden.
    rewrite (foldl_dict_set_distinct _recursive_hash_placement m []) by exact Hnd.
    reflexivity. }
  split; [rewrite placement_map, Heq; reflexivity|].
  split; [exact Heq|].
  rewrite Heq. clear. induction m as [|[k v] m IH]; [reflexivity|].
  cbn. rewrite <- IH. reflexivity.
Qed.

Lemma X2_placement_keeps_keys_witness :
  literal_map_overridden [("x", hashed_leaf "a"); ("y", int_literal "1")]
  = [("x", Literal_of_hash "h"); ("y", int_literal "1")].
Proof.
  destruct (X2_placement_keeps_keys None [("x", hashed_leaf "a"); ("y", int_literal "1")]
              None None) as (_ & Heq & _).
  - cbn. apply NoDup_cons. split; [|apply NoDup_singleton].
    intros Hin. apply list_elem_of_singleton in Hin. discriminate.
  - rewrite Heq. reflexivity.
Defined.

Lemma overridden_canonical (m : dict Literal) :
  Forall (fun kv => _recursive_hash_placement (_recursive_hash_placement kv.2)
                    = _recursive_hash_placement kv.2) m ->
  NoDup (literal_map_overridden m).*1
  /\ Forall (fun kv => _recursive_hash_placement kv.2 = kv.2) (literal_map_overridden m).
Proof.
  intros Hm. unfold literal_map_overridden.
  apply (foldl_dict_set_invariant _recursive_hash_placement
           (fun kv => _recursive_hash_placement kv.2 = kv.2)).
  - constructor.
  - constructor.
  - exact Hm.
Qed.

Lemma placement_idempotent (l : Literal) :
  _recursive_hash_placement (_recursive_hash_placement l) = _recursive_hash_placement l.
Proof.
  induction l as [s c m h md IHc IHm] using Literal_ind'.
  destruct c as [ls|].
  - rewrite placement_collection. unfold Literal_of_collection at 1.
    rewrite placement_collection. f_equal.
    specialize (IHc ls eq_refl). clear -IHc.
    induction IHc as [|a ls Ha _ IH]; [reflexivity|].
    cbn. rewrite Ha, IH. reflexivity.
  - destruct m as [kvs|].
    + rewrite placement_map. unfold Literal_of_map at 1. rewrite placement_map. f_equal.
      destruct (overridden_canonical kvs (IHm kvs eq_refl)) as [Hnd Hfix].
      unfold literal_map_overridden at 1.
      rewrite (foldl_dict_set_distinct _recursive_hash_placement
                 (literal_map_overridden kvs) []) by exact Hnd.
      cbn [app]. clear -Hfix. induction Hfix as [|[k v] d Hv _ IH]; [reflexivity|].
      cbn in *. rewrite Hv, IH. reflexivity.
    + destruct h as [h|]; reflexivity.
Qed.

(** X1: the canonical form is a fixed point of [_recursive_hash_placement],
    for a literal and for the dictionary of an input set, so fingerprinting
    the canonical inputs gives the key of the inputs. *)
Theorem X1_placement_idempotent `{NumpyHasher Stream}
    (task_name cache_version : string) (l : Literal) (inputs : LiteralMap) :
  _recursive_hash_placement (_recursive_hash_placement l) = _recursive_hash_placement l
  /\ literal_map_overridden (literal_map_overridden inputs) = literal_map_overridden inputs
  /\ _calculate_cache_key task_name cache_version (literal_map_overridden inputs)
     = _calculate_cache_key task_name cache_version inputs.
Proof.
  split; [apply placement_idempotent|].
  assert (Hidem : literal_map_overridden (literal_map_overridden inputs)
                  = literal_map_overridden inputs).
  { destruct (overridden_canonical inputs) as [Hnd Hfix].
    { apply Forall_forall. intros kv _. apply placement_idempotent. }
    unfold literal_map_overridden at 1.
    rewrite (foldl_dict_set_distinct _recursive_hash_placement
               (literal_map_overridden inputs) []) by exact Hnd.
    cbn [app]. clear -Hfix. induction Hfix as [|[k v] d Hv _ IH]; [reflexivity|].
    cbn in *. rewrite Hv, IH. reflexivity. }
  split; [exact Hidem|].
  unfold _calculate_cache_key. rewrite Hidem. reflexivity.
Qed.

Lemma placement_container_tags :
  forall l1 l2, container_tags_variant l1 l2 ->
  _recursive_hash_placement l1 = _recursive_hash_placement l2.
Proof.
  fix IH 3. intros l1 l2 Hv.
  destruct Hv as [l | s s' ls1 ls2 m m' h h' md md' Hls | s s' m1 m2 h h' md md' Hm].
  - reflexivity.
  - rewrite !placement_collection. f_equal.
    induction Hls as [|a b ls1 ls2 Hab _ IHls]; [reflexivity|].
    simpl. f_equal; [apply IH, Hab | apply IHls].
  - rewrite !placement_map. f_equal. apply overridden_foldl_eq.
    induction Hm as [|a b m1 m2 [Hk Hab] _ IHm]; constructor.
    + split; [exact Hk | apply IH, Hab].
    + apply IHm.
Qed.

(** X3: what a collection or a map carries beside its children (a hash, a
    scalar, metadata, and for a collection also a map) does not reach the
    key, at any depth: two input sets that differ only there get the same
    canonical dictionary and the same key, whatever the hasher.  A hash on a
    collection or a map is among what is left out. *)
Theorem X3_tags_of_containers_ignored `{NumpyHasher Stream}
    (task_name cache_version : string) (inputs1 inputs2 : LiteralMap) :
  inputs_related container_tags_variant inputs1 inputs2 ->
  literal_map_overridden inputs1 = literal_map_overridden inputs2
  /\ _calculate_cache_key task_name cache_version inputs1
     = _calculate_cache_key task_name cache_version inputs2.
Proof.
  intros Hrel.
  assert (Heq : literal_map_overridden inputs1 = literal_map_overridden inputs2).
  { apply overridden_foldl_eq. eapply Forall2_impl; [exact Hrel|].
    intros a b [Hk Hv]. split; [exact Hk | apply placement_container_tags, Hv]. }
  split; [exact Heq|].
  unfold _calculate_cache_key. rewrite Heq. reflexivity.
Qed.

Lemma X3_tags_of_containers_ignored_witness :
  _calculate_cache_key "t" "1"
    [("x", Literal_of_map
             [("inner", mkLiteral None (Some [int_literal "1"]) None (Some "h1") None)])]
  = _calculate_cache_key "t" "1"
      [("x", mkLiteral (Some (PyStr "s")) None
               (Some [("inner",
                       mkLiteral None (Some [int_literal "1"]) None (Some "h2")
                         (Some [("k", "v")]))])
               (Some "outer") None)].
Proof.
  apply (X3_tags_of_containers_ignored (H := RecordingHasher) "t" "1").
  constructor; [split; [reflexivity|] | constructor].
  apply ctv_map. constructor; [split; [reflexivity|] | constructor].
  apply ctv_collection. constructor; [apply ctv_same | constructor].
Defined.

(** ** The cache store, further *)

Lemma stored_add_other (key key' : string) (v : LiteralMap) (d : Disk) :
  key <> key' ->
  stored key' (Cache_add (mkCache CACHE_LOCATION) key v d) = stored key' d.
Proof.
  intros Hne. unfold stored, Cache_add, Cache_get. cbn [directory].
  destruct (d !! CACHE_LOCATION) as [store|] eqn:Hdir; cbn [default from_option id].
  - destruct (store !! key) as [old|] eqn:Hkey.
    + rewrite Hdir. reflexivity.
    + rewrite lookup_insert_eq. cbn. rewrite lookup_insert_ne by exact Hne. reflexivity.
  - rewrite lookup_empty. rewrite lookup_insert_eq. cbn.
    rewrite lookup_insert_ne by exact Hne. rewrite lookup_empty. reflexivity.
Qed.

Lemma cache_inv_lazy_initialize (st : LocalTaskCache.t) :
  cache_inv st -> cache_inv (LocalTaskCache.lazy_initialize st).
Proof. intros Hinv _. apply lazy_initialize_cache, Hinv. Qed.

Section StoreMore.
Context `{NumpyHasher Stream}.
Variables task_name cache_version : string.
Variable inputs : LiteralMap.

Lemma set_then_stored (value : LiteralMap) (st : LocalTaskCache.t) :
  cache_inv st ->
  stored (_calculate_cache_key task_name cache_version inputs) (LocalTaskCache.disk st)
  = None ->
  stored (_calculate_cache_key task_name cache_version inputs)
    (LocalTaskCache.disk (LocalTaskCache.set task_name cache_version inputs value st).2)
  = Some value.
Proof.
  intros Hinv Habsent. rewrite (set_result _ _ _ value st Hinv).
  cbn [fst snd LocalTaskCache.disk].
  rewrite stored_add, lazy_initialize_stored, Habsent. reflexivity.
Qed.

(** X4: a value set under a key that the store does not hold is what [get]
    returns, in the same process and in a process that loads the class anew
    over the same directory. *)
Theorem X4_set_get_round_trip (value : LiteralMap) (st : LocalTaskCache.t) :
  cache_inv st ->
  stored (_calculate_cache_key task_name cache_version inputs) (LocalTaskCache.disk st)
  = None ->
  (LocalTaskCache.get task_name cache_version inputs
     (LocalTaskCache.set task_name cache_version inputs value st).2).1
  = Ok (Some value)
  /\ (LocalTaskCache.get task_name cache_version inputs
        (LocalTaskCache.loaded
           (LocalTaskCache.disk
              (LocalTaskCache.set task_name cache_version inputs value st).2))).1
     = Ok (Some value).
Proof.
  intros Hinv Habsent.
  rewrite (set_result _ _ _ value st Hinv). cbn [fst snd LocalTaskCache.disk].
  assert (Hstored :
    stored (_calculate_cache_key task_name cache_version inputs)
      (Cache_add (mkCache CACHE_LOCATION)
         (_calculate_cache_key task_name cache_version inputs) value
         (LocalTaskCache.disk (LocalTaskCache.lazy_initialize st)))
    = Some value).
  { rewrite stored_add, lazy_initialize_stored, Habsent. reflexivity. }
  split.
  - rewrite get_result by (intros _; reflexivity).
    cbn [fst snd LocalTaskCache.disk]. rewrite Hstored. reflexivity.
  - rewrite get_result by apply cache_inv_loaded.
    cbn [fst snd LocalTaskCache.disk LocalTaskCache.loaded]. rewrite Hstored.
    reflexivity.
Qed.

(** X5: [set] changes the store under its own key only, and [get] changes
    nothing that is stored. *)
Theorem X5_set_get_frame (value : LiteralMap) (st : LocalTaskCache.t) (key : string) :
  cache_inv st ->
  (key <> _calculate_cache_key task_name cache_version inputs ->
   stored key
     (LocalTaskCache.disk (LocalTaskCache.set task_name cache_version inputs value st).2)
   = stored key (LocalTaskCache.disk st))
  /\ stored key
       (LocalTaskCache.disk (LocalTaskCache.get task_name cache_version inputs st).2)
     = stored key (LocalTaskCache.disk st).
Proof.
  intros Hinv. split.
  - intros Hne. rewrite (set_result _ _ _ value st Hinv).
    cbn [fst snd LocalTaskCache.disk].
    rewrite stored_add_other by (intros Heq; apply Hne; symmetry; exact Heq).
    apply lazy_initialize_stored.
  - rewrite (get_result _ _ _ st Hinv). cbn [fst snd]. apply lazy_initialize_stored.
Qed.

(** X6: after [clear], [set] takes effect for every key, also one that held
    another value before: [get] returns the new value. *)
Theorem X6_clear_then_set (value : LiteralMap) (st : LocalTaskCache.t) :
  cache_inv st ->
  (LocalTaskCache.get task_name cache_version inputs
     (LocalTaskCache.set task_name cache_version inputs value
        (LocalTaskCache.clear st).2).2).1
  = Ok (Some value)
  /\ (LocalTaskCache.get task_name cache_version inputs (LocalTaskCache.clear st).2).1
     = Ok None.
Proof.
  intros Hinv. rewrite (clear_result st Hinv). cbn [fst snd].
  set (st1 := LocalTaskCache.mk (Some (mkCache CACHE_LOCATION)) true
                (Cache_clear (mkCache CACHE_LOCATION)
                   (LocalTaskCache.disk (LocalTaskCache.lazy_initialize st)))).
  assert (Hinv1 : cache_inv st1) by (intros _; reflexivity).
  assert (Hempty : forall key, stored key (LocalTaskCache.disk st1) = None)
    by (intros key; apply stored_clear).
  split.
  - rewrite get_result.
    + cbn [fst snd]. rewrite (set_then_stored value st1 Hinv1 (Hempty _)). reflexivity.
    + rewrite (set_result _ _ _ value st1 Hinv1). intros _. reflexivity.
  - rewrite (get_result _ _ _ st1 Hinv1). cbn [fst snd]. rewrite Hempty. reflexivity.
Qed.

(** X7: from a consistent state, also the one before any operation, every
    operation leaves the class initialized: [_initialized] is true and
    [_cache] is the cache of [CACHE_LOCATION].  In such a state no operation
    finds [_cache] unset, and [initialize], called again, opens the same
    store and loses nothing. *)
Theorem X7_operations_keep_initialized (value : LiteralMap) (st : LocalTaskCache.t)
    (key : string) :
  cache_inv st ->
  initialized (LocalTaskCache.initialize st)
  /\ initialized (LocalTaskCache.clear st).2
  /\ initialized (LocalTaskCache.get task_name cache_version inputs st).2
  /\ initialized (LocalTaskCache.set task_name cache_version inputs value st).2
  /\ (forall st', initialized st' ->
      (LocalTaskCache.clear st').1 = Ok ()
      /\ (LocalTaskCache.set task_name cache_version inputs value st').1 = Ok ()
      /\ (LocalTaskCache.get task_name cache_version inputs st').1
         = Ok (stored (_calculate_cache_key task_name cache_version inputs)
                 (LocalTaskCache.disk st')))
  /\ stored key (LocalTaskCache.disk (LocalTaskCache.initialize st))
     = stored key (LocalTaskCache.disk st).
Proof.
  intros Hinv.
  rewrite (clear_result st Hinv), (get_result _ _ _ st Hinv),
    (set_result _ _ _ value st Hinv). cbn [fst snd].
  split; [split; reflexivity|].
  split; [split; reflexivity|].
  split; [destruct (lazy_initialize_cache st Hinv) as [Hc Hi]; split; assumption|].
  split; [split; reflexivity|].
  split.
  - intros st' [Hi Hc].
    assert (Hinv' : cache_inv st') by (intros _; exact Hc).
    rewrite (clear_result st' Hinv'), (get_result _ _ _ st' Hinv'),
      (set_result _ _ _ value st' Hinv').
    repeat split.
  - unfold LocalTaskCache.initialize, Cache_open, stored, Cache_get.
    cbn [LocalTaskCache.disk directory].
    destruct (LocalTaskCache.disk st !! CACHE_LOCATION) eqn:Hdir.
    + rewrite Hdir. reflexivity.
    + rewrite lookup_insert_eq. cbn. apply lookup_empty.
Qed.
End StoreMore.

Lemma X4_set_get_round_trip_witness :
  (LocalTaskCache.get "add_numbers" "1" [("x", int_literal "3")]
     (LocalTaskCache.loaded
        (LocalTaskCache.disk
           (LocalTaskCache.set "add_numbers" "1" [("x", int_literal "3")] demo_outputs
              (LocalTaskCache.loaded ∅)).2))).1
  = Ok (Some demo_outputs).
Proof.
  assert (Hinv : cache_inv (LocalTaskCache.loaded ∅)).
  { unfold cache_inv. simpl. intros Hinit. discriminate Hinit. }
  destruct (X4_set_get_round_trip (H := RecordingHasher) "add_numbers" "1"
              [("x", int_literal "3")] demo_outputs (LocalTaskCache.loaded ∅) Hinv)
    as [_ Hget].
  - reflexivity.
  - exact Hget.
Defined.

Lemma X5_set_get_frame_witness :
  stored "other"
    (LocalTaskCache.disk
       (LocalTaskCache.set "add_numbers" "1" [] demo_outputs (LocalTaskCache.loaded ∅)).2)
  = None.
Proof.
  assert (Hinv : cache_inv (LocalTaskCache.loaded ∅)).
  { unfold cache_inv. simpl. intros Hinit. discriminate Hinit. }
  destruct (X5_set_get_frame (H := RecordingHasher) "add_numbers" "1" [] demo_outputs
              (LocalTaskCache.loaded ∅) "other" Hinv) as [Hset _].
  rewrite Hset.
  - reflexivity.
  - vm_compute. discriminate.
Defined.

Lemma X6_clear_then_set_witness :
  (LocalTaskCache.get "t" "1" []
     (LocalTaskCache.set "t" "1" [] [("o0", int_literal "2")]
        (LocalTaskCache.clear
           (LocalTaskCache.set "t" "1" [] [("o0", int_literal "1")]
              (LocalTaskCache.loaded ∅)).2).2).2).1
  = Ok (Some [("o0", int_literal "2")]).
Proof.
  apply (X6_clear_then_set (H := RecordingHasher) "t" "1" [] [("o0", int_literal "2")]).
  intros _. reflexivity.
Defined.

Lemma X7_operations_keep_initialized_witness :
  initialized (LocalTaskCache.get "t" "1" [] (LocalTaskCache.loaded ∅)).2
  /\ initialized (LocalTaskCache.clear (LocalTaskCache.loaded ∅)).2.
Proof.
  assert (Hinv : cache_inv (LocalTaskCache.loaded ∅)).
  { unfold cache_inv. simpl. intros Hinit. discriminate Hinit. }
  destruct (X7_operations_keep_initialized (H := RecordingHasher) "t" "1" []
              demo_outputs (LocalTaskCache.loaded ∅) "k" Hinv)
    as (_ & Hclear & Hget & _).
  split; [exact Hget | exact Hclear].
Defined.

(** ** [_create], further *)

Section CreateMore.
Context {B : Type} `{AgentBase B} `{Runtime}.
Variable _entity : PythonTask.

Lemma convert_step (literals : nat) (k : string) (v : PyValue) (ty : LiteralType)
    (l : Literal) (w : World B) :
  dict_get (interface_inputs _entity) k = Some ty -> to_literal v ty = Some l ->
  (do l <- convert _entity k v; setitem literals k (OfLiteral l)) w
  = (Return (),
     mkWorld (backend w) (remote w) (local w)
       (<[literals := dict_set (default [] (heap w !! literals)) k (OfLiteral l)]> (heap w))
       (_clean_up_task w) (sigint w) (interrupts w) (entropy w) (trace w)).
Proof.
  intros Hty Hl. unfold convert, setitem, bind, read, ret. rewrite Hty, Hl.
  reflexivity.
Qed.

(** Once [literals] holds the converted literals, the rest of [_create]
    stages the inputs for a function task, calls the agent and installs the
    handler. *)
Lemma create_result (task_template : TaskTemplate) (output_prefix : string)
    (inputs literals : nat) (literal_map : LiteralMap) (w w0 w1 : World B) :
  inputs_or_new inputs w = (Return literals, w0) ->
  for_each (default [] (heap w0 !! inputs))
    (fun kv => do l <- convert _entity kv.1 kv.2; setitem literals kv.1 (OfLiteral l)) w0
  = (Return (), w1) ->
  heap w1 !! literals = Some (of_literals literal_map) ->
  _create _entity task_template output_prefix inputs w
  = (Return (created _entity task_template output_prefix literal_map w1).1,
     (created _entity task_template output_prefix literal_map w1).2).
Proof.
  intros Hnew Hloop Hheap.
  unfold _create. unfold bind at 1. rewrite Hnew.
  unfold bind at 1. unfold read at 1.
  unfold bind at 1. rewrite Hloop.
  unfold bind at 1. unfold read at 1. rewrite Hheap. cbn [from_option id].
  rewrite as_literals_of_literals.
  unfold created. destruct (is_PythonFunctionTask _entity); reflexivity.
Qed.

(** X11: when the dictionary behind [inputs] has an item and every value
    converts, [_create] calls the agent once with the converted literals and
    installs the handler for the handle of the response; for a function task
    it first writes the literals to [<output_prefix>/inputs.pb] and gives the
    agent the rendered template, otherwise it writes nothing and gives the
    template as it is. *)
Theorem X11_create_stages_and_calls (task_template : TaskTemplate) (output_prefix : string)
    (inputs : nat) (d : dict PyValue) (literal_map : LiteralMap) (w : World B) :
  heap w !! inputs = Some d -> d <> [] -> NoDup d.*1 ->
  to_literals (interface_inputs _entity) d = Some literal_map ->
  _create _entity task_template output_prefix inputs w
  = (Return
       (agent_create output_prefix
          (if is_PythonFunctionTask _entity
           then render_task_template task_template output_prefix else task_template)
          literal_map (backend w)).1,
     (created _entity task_template output_prefix literal_map
        (mkWorld (backend w) (remote w) (local w)
           (<[inputs := of_literals literal_map]> (heap w))
           (_clean_up_task w) (sigint w) (interrupts w) (entropy w) (trace w))).2)
  /\ sigint (_create _entity task_template output_prefix inputs w).2
     = Some (resource_meta
               (agent_create output_prefix
                  (if is_PythonFunctionTask _entity
                   then render_task_template task_template output_prefix
                   else task_template)
                  literal_map (backend w)).1)
  /\ (if is_PythonFunctionTask _entity
      then remote (_create _entity task_template output_prefix inputs w).2
           = <[output_prefix +:+ "/inputs.pb" := literal_map]> (remote w)
      else remote (_create _entity task_template output_prefix inputs w).2 = remote w)
  /\ count (fun e => match e with EvCreate _ _ => true | _ => false end)
       (trace (_create _entity task_template output_prefix inputs w).2)
     = S (count (fun e => match e with EvCreate _ _ => true | _ => false end) (trace w)).
Proof.
  intros Hd Hne Hnodup Hconv.
  pose proof (inputs_or_new_alias inputs d w Hd Hne) as Halias.
  assert (Hloop := convert_in_place _entity inputs d [] literal_map w Hconv Hd Hnodup).
  cbn [app] in Hloop.
  assert (Hcreate := create_result task_template output_prefix inputs inputs literal_map
                       w w
                       (mkWorld (backend w) (remote w) (local w)
                          (<[inputs := of_literals literal_map]> (heap w))
                          (_clean_up_task w) (sigint w) (interrupts w) (entropy w)
                          (trace w))).
  rewrite Hd in Hcreate. specialize (Hcreate Halias Hloop (lookup_insert_eq _ _ _)).
  rewrite Hcreate. clear Hcreate Hloop Halias.
  unfold created, count. cbn [fst snd backend remote local heap _clean_up_task sigint
    interrupts entropy trace].
  split; [reflexivity|]. split; [reflexivity|].
  split; [destruct (is_PythonFunctionTask _entity); reflexivity|].
  destruct (is_PythonFunctionTask _entity);
    rewrite !List.filter_app, !length_app; cbn [List.filter length]; lia.
Qed.

(** X9: when the dictionary behind [inputs] is empty, [literals] is a new
    dictionary: the caller's dictionary stays as it is, and the agent is
    called with an empty literal map. *)
Theorem X9_create_empty_inputs (task_template : TaskTemplate) (output_prefix : string)
    (inputs : nat) (w : World B) :
  heap w !! inputs = Some [] ->
  fresh_loc (heap w) <> inputs
  /\ _create _entity task_template output_prefix inputs w
     = (Return
          (agent_create output_prefix
             (if is_PythonFunctionTask _entity
              then render_task_template task_template output_prefix else task_template)
             [] (backend w)).1,
        (created _entity task_template output_prefix []
           (mkWorld (backend w) (remote w) (local w)
              (<[fresh_loc (heap w) := []]> (heap w))
              (_clean_up_task w) (sigint w) (interrupts w) (entropy w) (trace w))).2)
  /\ heap (_create _entity task_template output_prefix inputs w).2 !! inputs = Some []
  /\ EvCreate output_prefix []
     ∈ trace (_create _entity task_template output_prefix inputs w).2.
Proof.
  intros Hd.
  assert (Hfresh : fresh_loc (heap w) <> inputs).
  { intros Heq. apply (is_fresh (dom (heap w))). unfold fresh_loc in Heq. rewrite Heq.
    apply elem_of_dom. eexists. exact Hd. }
  split; [exact Hfresh|].
  set (w0 := mkWorld (backend w) (remote w) (local w)
               (<[fresh_loc (heap w) := []]> (heap w))
               (_clean_up_task w) (sigint w) (interrupts w) (entropy w) (trace w)).
  assert (Hnew : inputs_or_new inputs w = (Return (fresh_loc (heap w)), w0)).
  { unfold inputs_or_new, bind, read. cbn. rewrite Hd. reflexivity. }
  assert (Hitems : heap w0 !! inputs = Some []).
  { unfold w0. cbn [heap]. rewrite lookup_insert_ne by exact Hfresh. exact Hd. }
  assert (Hcreate := create_result task_template output_prefix inputs
                       (fresh_loc (heap w)) [] w w0 w0 Hnew).
  rewrite Hitems in Hcreate. specialize (Hcreate eq_refl).
  assert (Hlit : heap w0 !! fresh_loc (heap w) = Some (of_literals [])).
  { unfold w0. cbn [heap]. apply lookup_insert_eq. }
  specialize (Hcreate Hlit). rewrite Hcreate. clear Hcreate.
  unfold created. cbn [fst snd heap trace backend].
  split; [reflexivity|]. split; [exact Hitems|].
  rewrite !elem_of_app. left. right. apply list_elem_of_singleton. reflexivity.
Qed.

(** The loop stops at the first item that does not convert; the items before
    it have been replaced, and nothing else has changed. *)
Lemma convert_fails (literals : nat) (items : dict PyValue) :
  forall w : World B,
  to_literals (interface_inputs _entity) items = None ->
  exists e w',
    for_each items
      (fun kv => do l <- convert _entity kv.1 kv.2; setitem literals kv.1 (OfLiteral l)) w
    = (Raise e, w')
    /\ same_but_heap w w'
    /\ exists k, k ∈ items.*1 /\ (e = KeyError k \/ e = TypeTransformerFailedError k).
Proof.
  induction items as [|[k v] items IH]; intros w Hconv; cbn in Hconv; [discriminate|].
  destruct (dict_get (interface_inputs _entity) k) as [ty|] eqn:Hty.
  - destruct (to_literal v ty) as [l|] eqn:Hl.
    + destruct (to_literals (interface_inputs _entity) items) as [lm|] eqn:Hrest;
        [discriminate|].
      cbn [for_each]. unfold bind at 1. cbn [fst snd].
      rewrite (convert_step literals k v ty l w Hty Hl).
      destruct (IH (mkWorld (backend w) (remote w) (local w)
                      (<[literals := dict_set (default [] (heap w !! literals)) k
                                       (OfLiteral l)]> (heap w))
                      (_clean_up_task w) (sigint w) (interrupts w) (entropy w) (trace w))
                  eq_refl) as (e & w' & Hloop & Hsame & k' & Hk' & He).
      exists e, w'. split; [exact Hloop|]. split; [exact Hsame|].
      exists k'. split; [rewrite fmap_cons; right; exact Hk' | exact He].
    + exists (TypeTransformerFailedError k), w. cbn [for_each].
      unfold bind, convert. cbn [fst snd]. rewrite Hty, Hl.
      split; [reflexivity|]. split; [repeat split|].
      exists k. split; [rewrite fmap_cons; left | right; reflexivity].
  - exists (KeyError k), w. cbn [for_each].
    unfold bind, convert. cbn [fst snd]. rewrite Hty.
    split; [reflexivity|]. split; [repeat split|].
    exists k. split; [rewrite fmap_cons; left | left; reflexivity].
Qed.

(** X10: when a key of the inputs is not an input of the interface, or a
    value does not convert, [_create] raises [KeyError] or the type engine's
    error for such a key before it reaches the agent: the backend, the blob
    store, the trace and the installed handler are as before. *)
Theorem X10_create_conversion_fails (task_template : TaskTemplate) (output_prefix : string)
    (inputs : nat) (d : dict PyValue) (w : World B) :
  heap w !! inputs = Some d ->
  to_literals (interface_inputs _entity) d = None ->
  exists e w',
    _create _entity task_template output_prefix inputs w = (Raise e, w')
    /\ same_but_heap w w'
    /\ exists k, k ∈ d.*1 /\ (e = KeyError k \/ e = TypeTransformerFailedError k).
Proof.
  intros Hd Hconv.
  assert (Hne : d <> []) by (intros ->; discriminate Hconv).
  pose proof (inputs_or_new_alias inputs d w Hd Hne) as Halias.
  destruct (convert_fails inputs d w Hconv) as (e & w' & Hloop & Hsame & Hkey).
  exists e, w'. split; [|split; assumption].
  unfold _create. unfold bind at 1. rewrite Halias.
  unfold bind at 1. unfold read at 1. rewrite Hd. cbn [from_option id].
  unfold bind at 1. rewrite Hloop. reflexivity.
Qed.
End CreateMore.

Lemma X11_create_stages_and_calls_witness :
  sigint (_create (H := async_agent) demo_task (template demo_task) "s3://bucket/0" 7
            (kwargs_world [("x", Native "3"); ("y", Native "4")])).2
  = Some "job".
Proof.
  destruct (X11_create_stages_and_calls (H := async_agent) demo_task (template demo_task)
              "s3://bucket/0" 7 [("x", Native "3"); ("y", Native "4")]
              [("x", int_literal "3"); ("y", int_literal "4")]
              (kwargs_world [("x", Native "3"); ("y", Native "4")]))
    as (_ & Hsig & _).
  - reflexivity.
  - discriminate.
  - cbn. apply NoDup_cons. split; [|apply NoDup_singleton].
    intros Hin. apply list_elem_of_singleton in Hin. discriminate.
  - reflexivity.
  - rewrite Hsig. reflexivity.
Defined.

Lemma X9_create_empty_inputs_witness :
  heap (_create (H := async_agent) demo_task (template demo_task) "s3://bucket/0" 7
          (kwargs_world [])).2 !! 7
  = Some [].
Proof.
  destruct (X9_create_empty_inputs (H := async_agent) demo_task (template demo_task)
              "s3://bucket/0" 7 (kwargs_world [])) as (_ & _ & Hheap & _).
  - reflexivity.
  - exact Hheap.
Defined.

Lemma X10_create_conversion_fails_witness :
  exists e w',
    _create (H := async_agent) demo_task (template demo_task) "s3://bucket/0" 7
      (kwargs_world [("x", Native "3"); ("z", Native "4")]) = (Raise e, w')
    /\ trace w' = [].
Proof.
  destruct (X10_create_conversion_fails (H := async_agent) demo_task (template demo_task)
              "s3://bucket/0" 7 [("x", Native "3"); ("z", Native "4")]
              (kwargs_world [("x", Native "3"); ("z", Native "4")]))
    as (e & w' & Hcreate & Hsame & _).
  - reflexivity.
  - reflexivity.
  - exists e, w'. split; [exact Hcreate|].
    destruct Hsame as (_ & _ & _ & _ & _ & _ & _ & Htrace). exact Htrace.
Defined.

(** ** [execute], further *)

Section ExecuteMore.
Context {B : Type} `{AgentBase B} `{Runtime}.
Variable _entity : PythonTask.

(** X12: when [create] answers with a resource in state SUCCEEDED, [execute]
    returns the outputs of that resource as they are, also when they are
    empty and the interface declares outputs: it polls nothing and reads
    nothing from the staging location. *)
Theorem X12_immediate_result (fuel : nat) (kwargs : dict PyValue) (w w1 : World B)
    (prefix : string) (r : Resource) :
  submit _entity kwargs w = (Return (prefix, with_resource r), w1) ->
  state r = SUCCEEDED ->
  execute _entity fuel kwargs w = (Return (outputs r), w1)
  /\ List.filter is_EvGetData (trace w1) = List.filter is_EvGetData (trace w).
Proof.
  intros Hsubmit Hstate.
  pose proof (quiet_submit _entity kwargs w) as Hquiet. rewrite Hsubmit in Hquiet.
  split; [|exact Hquiet].
  unfold execute. unfold bind at 1. rewrite Hsubmit. cbn [fst snd HasField_resource].
  destruct (decide (state r = SUCCEEDED)); [reflexivity | contradiction].
Qed.

(** X13: when the poll loop ends in SUCCEEDED and the response holds an
    output literal, or the interface declares no output, [execute] returns
    the outputs of the response and reads nothing from the staging location. *)
Theorem X13_inline_outputs (fuel : nat) (kwargs : dict PyValue) (w w1 w2 : World B)
    (prefix meta : string) (res : GetTaskResponse) :
  submit _entity kwargs w = (Return (prefix, with_resource_meta meta), w1) ->
  _get fuel meta w1 = (Return res, w2) ->
  state (resource res) = SUCCEEDED ->
  outputs (resource res) <> [] \/ interface_outputs (template _entity) = [] ->
  execute _entity fuel kwargs w = (Return (outputs (resource res)), w2)
  /\ List.filter is_EvGetData (trace w2) = List.filter is_EvGetData (trace w).
Proof.
  intros Hsubmit Hget Hstate Hinline.
  pose proof (quiet_submit _entity kwargs w) as Hquiet. rewrite Hsubmit in Hquiet.
  pose proof (quiet_get fuel meta w1) as Hquiet'. rewrite Hget in Hquiet'.
  cbn [snd] in *.
  split; [|rewrite Hquiet'; exact Hquiet].
  unfold execute. unfold bind at 1. rewrite Hsubmit.
  cbn [fst snd HasField_resource resource_meta]. unfold bind at 1. rewrite Hget.
  destruct (decide (state (resource res) = SUCCEEDED)); [|contradiction].
  destruct Hinline as [Hout | ->].
  - destruct (interface_outputs (template _entity)); [reflexivity|].
    destruct (outputs (resource res)); [contradiction | reflexivity].
  - reflexivity.
Qed.

(** A failed run, as [execute] sees it. *)
Lemma execute_raises (fuel : nat) (kwargs : dict PyValue) (w w1 w2 : World B)
    (prefix meta : string) (res : GetTaskResponse) :
  submit _entity kwargs w = (Return (prefix, with_resource_meta meta), w1) ->
  _get fuel meta w1 = (Return res, w2) ->
  state (resource res) <> SUCCEEDED ->
  execute _entity fuel kwargs w = (Raise (failed _entity), w2).
Proof.
  intros Hsubmit Hget Hstate.
  unfold execute. unfold bind at 1. rewrite Hsubmit.
  cbn [fst snd HasField_resource resource_meta]. unfold bind at 1. rewrite Hget.
  destruct (decide (state (resource res) = SUCCEEDED)); [contradiction | reflexivity].
Qed.

Lemma execute_exits (fuel : nat) (kwargs : dict PyValue) (w w1 w2 : World B)
    (prefix meta : string) (code : Z) :
  submit _entity kwargs w = (Return (prefix, with_resource_meta meta), w1) ->
  _get fuel meta w1 = (SystemExit code, w2) ->
  execute _entity fuel kwargs w = (SystemExit code, w2).
Proof.
  intros Hsubmit Hget.
  unfold execute. unfold bind at 1. rewrite Hsubmit.
  cbn [fst snd HasField_resource resource_meta]. unfold bind at 1. rewrite Hget.
  reflexivity.
Qed.

Variable PythonFunctionTask_execute : dict PyValue -> M B LiteralMap.
Variable str : Exception -> string.

(** X17: the Anyscale task, submitted locally with a remote output prefix:
    when the remote run ends in a state other than SUCCEEDED, the error of
    [execute] is caught, two lines are printed, and the task function runs in
    process in the world that the remote run left; what it returns or raises
    is the result. *)
Theorem X17_anyscale_falls_back_on_failure (fuel : nat) (kwargs : dict PyValue)
    (w w1 w2 : World B) (prefix meta : string) (res : GetTaskResponse) :
  submit _entity kwargs w = (Return (prefix, with_resource_meta meta), w1) ->
  _get fuel meta w1 = (Return res, w2) ->
  state (resource res) <> SUCCEEDED ->
  AnyscaleFunctionTask_execute _entity PythonFunctionTask_execute str
    true (Some true) fuel kwargs w
  = PythonFunctionTask_execute kwargs
      (mkWorld (backend w2) (remote w2) (local w2) (heap w2) (_clean_up_task w2)
         (sigint w2) (interrupts w2) (entropy w2)
         (trace w2
          ++ [EvPrint ("❌ Agent failed to run the task with error: "
                       +:+ str (FlyteUserException
                                  ("Failed to run the task " +:+ name _entity)));
              EvPrint "Falling back to local execution"])).
Proof.
  intros Hsubmit Hget Hstate.
  unfold AnyscaleFunctionTask_execute.
  rewrite (execute_raises fuel kwargs w w1 w2 prefix meta res Hsubmit Hget Hstate).
  unfold failed. cbn [is_Exception]. unfold fall_back, bind, log.
  cbn [fst snd backend remote local heap _clean_up_task sigint interrupts entropy trace].
  rewrite <- app_assoc. reflexivity.
Qed.

(** X18: the Anyscale task does not fall back when the remote run leaves the
    process: an exit of the poll loop, as after an interrupt, is the result,
    and the task function does not run.  When the output prefix is not
    remote, or the execution is not local, the agent is not called at all:
    the task function runs in the world as it was, after the two printed
    lines in the first case. *)
Theorem X18_anyscale_exit_and_gates (fuel : nat) (kwargs : dict PyValue)
    (w w1 w2 : World B) (prefix meta : string) (code : Z)
    (execution_state : option bool) :
  (submit _entity kwargs w = (Return (prefix, with_resource_meta meta), w1) ->
   _get fuel meta w1 = (SystemExit code, w2) ->
   AnyscaleFunctionTask_execute _entity PythonFunctionTask_execute str
     true (Some true) fuel kwargs w
   = (SystemExit code, w2))
  /\ AnyscaleFunctionTask_execute _entity PythonFunctionTask_execute str
       false execution_state fuel kwargs w
     = PythonFunctionTask_execute kwargs
         (mkWorld (backend w) (remote w) (local w) (heap w) (_clean_up_task w)
            (sigint w) (interrupts w) (entropy w)
            (trace w
             ++ [EvPrint ("❌ Agent failed to run the task with error: "
                          +:+ not_remote_message);
                 EvPrint "Falling back to local execution"]))
  /\ (execution_state <> Some true ->
      AnyscaleFunctionTask_execute _entity PythonFunctionTask_execute str
        true execution_state fuel kwargs w
      = PythonFunctionTask_execute kwargs w).
Proof.
  split; [|split].
  - intros Hsubmit Hget. unfold AnyscaleFunctionTask_execute.
    rewrite (execute_exits fuel kwargs w w1 w2 prefix meta code Hsubmit Hget).
    reflexivity.
  - unfold AnyscaleFunctionTask_execute, fall_back, bind, log.
    cbn [fst snd backend remote local heap _clean_up_task sigint interrupts entropy trace].
    rewrite <- app_assoc. reflexivity.
  - intros Hstate. unfold AnyscaleFunctionTask_execute.
    destruct execution_state as [[|]|]; [contradiction | reflexivity | reflexivity].
Qed.
End ExecuteMore.

(** ** The poll loop, further *)

Section LifecycleMore.
Context {B : Type} `{AgentBase B}.

(** X15: with a synchronous backend, an interrupt during the sleep of a round
    deletes the handle that the handler was installed for and leaves the
    process with status 1 before the poll of that round. *)
Theorem X15_sync_interrupt (fuel n : nat) (meta handle : string) (rest : list nat)
    (w : World B) :
  asynchronous = false -> sigint w = Some handle -> interrupts w = S n :: rest ->
  _get (S fuel) meta w
  = (SystemExit 1,
     mkWorld (agent_delete handle (backend w)) (remote w) (local w) (heap w)
       (_clean_up_task w) (sigint w) rest (entropy w)
       (trace w ++ [EvSleep 1; EvDelete handle])).
Proof.
  intros Hsync Hsig Hint. unfold _get. unfold bind at 1. cbn [poll is_terminal_state].
  unfold bind at 1. unfold poll_once, sleep.
  unfold bind at 1. unfold bind at 1. cbn [log].
  unfold bind at 1. unfold next_interrupts. cbn [interrupts]. rewrite Hint.
  cbn [hd tl]. unfold bind at 1. unfold read at 1. cbn [sigint]. rewrite Hsig.
  cbn [times]. unfold bind at 1. rewrite signal_handler_sync by exact Hsync.
  cbn. rewrite <- !app_assoc. reflexivity.
Qed.

Lemma calm_hd (w : World B) : calm w -> hd 0 (interrupts w) = 0.
Proof. intros [Hq _]. destruct Hq; [reflexivity | symmetry; assumption]. Qed.
End LifecycleMore.

Create HintDb calmness.

Section Undisturbed.
Context {B : Type} `{AgentBase B} `{Runtime}.
Variable _entity : PythonTask.

Lemma und_bind {A A'} (c : M B A) (k : A -> M B A') :
  undisturbed c -> (forall a, undisturbed (k a)) -> undisturbed (bind c k).
Proof.
  intros Hc Hk w Hw. unfold bind. destruct (Hc w Hw) as (Hcalm & Hd & Hs & Hx).
  destruct (c w) as [[a|e|code|] w1]; cbn [fst snd] in *.
  - destruct (Hk a w1 Hcalm) as (Hcalm' & Hd' & Hs' & Hx').
    split; [exact Hcalm'|]. split; [rewrite Hd'; exact Hd|].
    split; [rewrite Hs'; exact Hs | exact Hx'].
  - split; [exact Hcalm|]. split; [exact Hd|]. split; [exact Hs|].
    intros code. discriminate.
  - exfalso. apply (Hx code). reflexivity.
  - split; [exact Hcalm|]. split; [exact Hd|]. split; [exact Hs|].
    intros code. discriminate.
Qed.

Lemma und_ret {A} (a : A) : undisturbed (B := B) (ret a).
Proof. intros w Hw. split; [exact Hw|]. repeat split; discriminate. Qed.

Lemma und_raise {A} (e : Exception) : undisturbed (B := B) (A := A) (raise e).
Proof. intros w Hw. split; [exact Hw|]. repeat split; discriminate. Qed.

Lemma und_out_of_fuel {A} : undisturbed (B := B) (A := A) out_of_fuel.
Proof. intros w Hw. split; [exact Hw|]. repeat split; discriminate. Qed.

Lemma und_log (e : Event) :
  is_EvDelete e = false -> is_EvCreateTask e = false -> undisturbed (B := B) (log e).
Proof.
  intros Hd Hs w Hw. cbn. rewrite !List.filter_app. cbn. rewrite Hd, Hs, !app_nil_r.
  split; [exact Hw|]. repeat split; discriminate.
Qed.

Lemma und_on_backend {A} (f : B -> A * B) : undisturbed (on_backend f).
Proof. intros w Hw. split; [exact Hw|]. repeat split; discriminate. Qed.

Lemma und_read {A} (f : World B -> A) : undisturbed (read f).
Proof. intros w Hw. split; [exact Hw|]. repeat split; discriminate. Qed.

Lemma und_set_remote path f : undisturbed (B := B) (set_remote path f).
Proof. intros w Hw. split; [exact Hw|]. repeat split; discriminate. Qed.

Lemma und_set_local path f : undisturbed (B := B) (set_local path f).
Proof. intros w Hw. split; [exact Hw|]. repeat split; discriminate. Qed.

Lemma und_set_heap h : undisturbed (B := B) (set_heap h).
Proof. intros w Hw. split; [exact Hw|]. repeat split; discriminate. Qed.

Lemma und_set_sigint h : undisturbed (B := B) (set_sigint h).
Proof. intros w Hw. split; [exact Hw|]. repeat split; discriminate. Qed.

Lemma und_draw : undisturbed (B := B) draw.
Proof. intros w Hw. split; [exact Hw|]. repeat split; discriminate. Qed.

Lemma und_for_each {A} (xs : list A) (body : A -> M B unit) :
  (forall x, undisturbed (body x)) -> undisturbed (for_each xs body).
Proof.
  intros Hbody. induction xs as [|x xs IH]; cbn [for_each].
  - apply und_ret.
  - apply und_bind; [apply Hbody | intros _; exact IH].
Qed.

(** A round of the loop in a calm world is a sleep and a poll. *)
Lemma und_poll_once (meta : string) : undisturbed (poll_once meta).
Proof.
  intros w Hw.
  rewrite poll_once_quiet; [|apply calm_hd, Hw | intros _; apply Hw].
  cbn [fst snd trace]. destruct Hw as [Hq Hnone].
  split; [split; [destruct Hq; [constructor | assumption] | exact Hnone]|].
  rewrite !List.filter_app. cbn. rewrite !app_nil_r.
  repeat split; discriminate.
Qed.

Hint Resolve und_ret und_raise und_out_of_fuel und_on_backend und_read und_set_remote
  und_set_local und_set_heap und_set_sigint und_draw und_poll_once : calmness.

Ltac und :=
  repeat first
    [ solve [auto with calmness]
    | apply und_log; reflexivity
    | apply und_bind; [|intros ?]
    | apply und_for_each; intros ?
    | match goal with
      | |- undisturbed (match ?x with _ => _ end) => destruct x
      | |- undisturbed (if ?x then _ else _) => destruct x
      end ].

Lemma und_poll (fuel : nat) (meta : string) (st : State) (res : option GetTaskResponse) :
  undisturbed (poll fuel meta st res).
Proof.
  revert st res. induction fuel as [|fuel IH]; intros st res; cbn [poll].
  - und.
  - destruct (is_terminal_state st); [und|].
    apply und_bind; [apply und_poll_once | intros r; apply IH].
Qed.

Lemma und_get (fuel : nat) (meta : string) : undisturbed (_get fuel meta).
Proof. unfold _get. apply und_bind; [apply und_poll | intros r]. und. Qed.

Lemma und_create (task_template : TaskTemplate) (output_prefix : string) (inputs : nat) :
  undisturbed (_create _entity task_template output_prefix inputs).
Proof. unfold _create, inputs_or_new, setitem, convert. und. Qed.
Hint Resolve und_create und_get : calmness.

Lemma und_execute (fuel : nat) (kwargs : dict PyValue) :
  undisturbed (execute _entity fuel kwargs).
Proof.
  unfold execute. apply und_bind.
  - unfold submit. und.
  - intros created. destruct (HasField_resource created.2) as [r|].
    + und.
    + apply und_bind; [apply und_get | intros res].
      unfold get_data, load_proto_from_file. und.
Qed.

(** X16: in a run of [execute] during which no interrupt arrives and that
    starts with no cleanup task, no delete reaches the backend, no cleanup
    task is scheduled and the process is not left, however the run ends. *)
Theorem X16_no_interrupt_no_delete (fuel : nat) (kwargs : dict PyValue) (w : World B) :
  Forall (eq 0) (interrupts w) -> _clean_up_task w = None ->
  count is_EvDelete (trace (execute _entity fuel kwargs w).2)
  = count is_EvDelete (trace w)
  /\ count is_EvCreateTask (trace (execute _entity fuel kwargs w).2)
     = count is_EvCreateTask (trace w)
  /\ _clean_up_task (execute _entity fuel kwargs w).2 = None
  /\ forall code, (execute _entity fuel kwargs w).1 <> SystemExit code.
Proof.
  intros Hq Hnone.
  destruct (und_execute fuel kwargs w (conj Hq Hnone)) as ([_ Hnone'] & Hd & Hs & Hx).
  unfold count. rewrite Hd, Hs. repeat split; assumption.
Qed.
End Undisturbed.

Lemma X12_immediate_result_witness :
  (execute (H := immediate_agent) demo_task 5 [("x", Native "3")]
     (demo_world [] [] ∅)).1
  = Return [].
Proof.
  pose (w := demo_world [] [] ∅).
  pose (w1 := (submit (H := immediate_agent) demo_task [("x", Native "3")] w).2).
  destruct (X12_immediate_result (H := immediate_agent) demo_task 5 [("x", Native "3")]
              w w1 "s3://bucket/0" (mkResource SUCCEEDED [] "" [])) as [Hexec _].
  - vm_compute. reflexivity.
  - reflexivity.
  - fold w. rewrite Hexec. reflexivity.
Defined.

Lemma X13_inline_outputs_witness :
  (execute (H := inline_agent) demo_task 5 [("x", Native "3")]
     (demo_world [RUNNING; SUCCEEDED] [] ∅)).1
  = Return [("o0", int_literal "7")].
Proof.
  pose (w := demo_world [RUNNING; SUCCEEDED] [] ∅).
  pose (w1 := (submit (H := inline_agent) demo_task [("x", Native "3")] w).2).
  pose (w2 := (_get (H := inline_agent) 5 "job" w1).2).
  destruct (X13_inline_outputs (H := inline_agent) demo_task 5 [("x", Native "3")]
              w w1 w2 "s3://bucket/0" "job"
              (answer SUCCEEDED [("o0", int_literal "7")])) as [Hexec _].
  - vm_compute. reflexivity.
  - vm_compute. reflexivity.
  - reflexivity.
  - left. discriminate.
  - fold w. rewrite Hexec. reflexivity.
Defined.

Lemma X15_sync_interrupt_witness :
  (_get (H := sync_agent) 1 "job" (polling_world [RUNNING] [1])).1 = SystemExit 1
  /\ trace (_get (H := sync_agent) 1 "job" (polling_world [RUNNING] [1])).2
     = [EvSleep 1; EvDelete "job"].
Proof.
  rewrite (X15_sync_interrupt (H := sync_agent) 0 0 "job" "job" []
             (polling_world [RUNNING] [1])).
  - split; reflexivity.
  - reflexivity.
  - reflexivity.
  - reflexivity.
Defined.

Lemma X16_no_interrupt_no_delete_witness :
  count is_EvDelete
    (trace (execute (H := async_agent) demo_task 5 [("x", Native "3")]
              (demo_world [RUNNING; PERMANENT_FAILURE] [] ∅)).2)
  = 0.
Proof.
  destruct (X16_no_interrupt_no_delete (H := async_agent) demo_task 5 [("x", Native "3")]
              (demo_world [RUNNING; PERMANENT_FAILURE] [] ∅)) as [Hdel _].
  - constructor.
  - reflexivity.
  - rewrite Hdel. reflexivity.
Defined.

Lemma X17_anyscale_falls_back_on_failure_witness :
  (AnyscaleFunctionTask_execute (H := async_agent) demo_task demo_function demo_str
     true (Some true) 5 [("x", Native "3")]
     (demo_world [RUNNING; PERMANENT_FAILURE] [] ∅)).1
  = Return [("o0", int_literal "7")].
Proof.
  pose (w := demo_world [RUNNING; PERMANENT_FAILURE] [] ∅).
  pose (w1 := (submit (H := async_agent) demo_task [("x", Native "3")] w).2).
  pose (w2 := (_get (H := async_agent) 5 "job" w1).2).
  rewrite (X17_anyscale_falls_back_on_failure (H := async_agent) demo_task demo_function
             demo_str 5 [("x", Native "3")] w w1 w2 "s3://bucket/0" "job"
             (answer PERMANENT_FAILURE [])).
  - reflexivity.
  - vm_compute. reflexivity.
  - vm_compute. reflexivity.
  - discriminate.
Defined.

Lemma X18_anyscale_exit_and_gates_witness :
  (AnyscaleFunctionTask_execute (H := async_agent) demo_task demo_function demo_str
     true (Some true) 5 [("x", Native "3")]
     (demo_world [RUNNING; SUCCEEDED] [1] ∅)).1
  = SystemExit 1
  /\ (AnyscaleFunctionTask_execute (H := async_agent) demo_task demo_function demo_str
        true None 5 [("x", Native "3")]
        (demo_world [RUNNING; SUCCEEDED] [1] ∅)).1
     = Return [("o0", int_literal "7")].
Proof.
  pose (w := demo_world [RUNNING; SUCCEEDED] [1] ∅).
  pose (w1 := (submit (H := async_agent) demo_task [("x", Native "3")] w).2).
  pose (w2 := (_get (H := async_agent) 5 "job" w1).2).
  destruct (X18_anyscale_exit_and_gates (H := async_agent) demo_task demo_function
              demo_str 5 [("x", Native "3")] w w1 w2 "s3://bucket/0" "job" 1 None)
    as (Hexit & _ & Hgate).
  fold w. split.
  - rewrite Hexit; [reflexivity | vm_compute; reflexivity | vm_compute; reflexivity].
  - rewrite Hgate; [reflexivity | discriminate].
Defined.

(** ** Basic authentication *)


Lemma remove_newlines_clean (text : string) :
  basic_auth.newline ∉ chars (basic_auth.remove_newlines text).
Proof.
  induction text as [|c text IH]; cbn.
  - apply not_elem_of_nil.
  - destruct (Ascii.eqb c basic_auth.newline) eqn:Hc; [exact IH|].
    cbn. apply not_elem_of_cons. split; [|exact IH].
    intros Heq. apply Ascii.eqb_neq in Hc. apply Hc. symmetry. exact Heq.
Qed.

Lemma remove_newlines_id (text : string) :
  basic_auth.newline ∉ chars text -> basic_auth.remove_newlines text = text.
Proof.
  induction text as [|c text IH]; cbn; [reflexivity|].
  intros Hnone. apply not_elem_of_cons in Hnone as [Hne Hnone].
  destruct (Ascii.eqb c basic_auth.newline) eqn:Hc.
  - apply Ascii.eqb_eq in Hc. congruence.
  - rewrite (IH Hnone). reflexivity.
Qed.

Lemma remove_newlines_length (text : string) :
  String.length (basic_auth.remove_newlines text) <= String.length text.
Proof.
  induction text as [|c text IH]; cbn; [lia|].
  destruct (Ascii.eqb c basic_auth.newline); cbn; lia.
Qed.

(** The characters that [replace] keeps, in their order. *)
Lemma remove_newlines_chars (text : string) :
  chars (basic_auth.remove_newlines text)
  = List.filter (fun c => negb (Ascii.eqb c basic_auth.newline)) (chars text).
Proof.
  induction text as [|c text IH]; [reflexivity|].
  change (chars (String c text)) with (c :: chars text).
  cbn [basic_auth.remove_newlines List.filter].
  destruct (Ascii.eqb c basic_auth.newline); cbn [negb]; [exact IH|].
  change (chars (String c (basic_auth.remove_newlines text)))
    with (c :: chars (basic_auth.remove_newlines text)).
  rewrite IH. reflexivity.
Qed.

(** X19: [get_file_contents] of a file that exists returns its text with
    every newline removed: the characters of the result are the characters
    of the text other than the newline, each as often and in the order as in
    the text.  So the result holds no newline, is the text itself when the
    text holds none, and is not longer than the text.  A missing file is an
    error. *)
Theorem X19_file_contents_without_newlines (files : gmap string string)
    (location text : string) :
  files !! location = Some text ->
  exists contents,
    basic_auth.get_file_contents files location = basic_auth.Got contents
    /\ chars contents
       = List.filter (fun c => negb (Ascii.eqb c basic_auth.newline)) (chars text)
    /\ (basic_auth.newline ∉ chars contents)
    /\ ((basic_auth.newline ∉ chars text) -> contents = text)
    /\ String.length contents <= String.length text
    /\ basic_auth.get_file_contents (delete location files) location
       = basic_auth.Failed (basic_auth.IOError location).
Proof.
  intros Hfile. exists (basic_auth.remove_newlines text).
  unfold basic_auth.get_file_contents. rewrite Hfile, lookup_delete_eq.
  split; [reflexivity|]. split; [apply remove_newlines_chars|].
  split; [apply remove_newlines_clean|].
  split; [apply remove_newlines_id|]. split; [apply remove_newlines_length|].
  reflexivity.
Qed.

Lemma X19_file_contents_without_newlines_witness :
  basic_auth.get_file_contents
    {["/etc/secret" := String basic_auth.newline "s3cr" +:+ String basic_auth.newline "et"
                       +:+ String basic_auth.newline ""]}
    "/etc/secret"
  = basic_auth.Got "s3cret".
Proof.
  destruct (X19_file_contents_without_newlines
              {["/etc/secret" := String basic_auth.newline "s3cr"
                                 +:+ String basic_auth.newline "et"
                                 +:+ String basic_auth.newline ""]}
              "/etc/secret"
              (String basic_auth.newline "s3cr" +:+ String basic_auth.newline "et"
               +:+ String basic_auth.newline ""))
    as (contents & Hget & Hchars & _).
  - reflexivity.
  - rewrite Hget. f_equal.
    rewrite <- (String.string_of_list_ascii_of_string contents).
    change (String.list_ascii_of_string contents) with (chars contents).
    rewrite Hchars. reflexivity.
Defined.

(** X20: [get_secret] reads the file when the location is set, whatever the
    secret of the environment is: the secret it then returns holds no
    newline, and a file that is missing is an error.  The secret of the
    environment is returned as it is when the location is unset or empty.
    The authentication error is raised exactly when both are unset or empty. *)
Theorem X20_get_secret_precedence (files : gmap string string)
    (cfg : basic_auth.Credentials) :
  (basic_auth.is_set (basic_auth.CLIENT_CREDENTIALS_SECRET_LOCATION cfg) = true ->
   basic_auth.get_secret files cfg
   = basic_auth.get_file_contents files
       (default "" (basic_auth.CLIENT_CREDENTIALS_SECRET_LOCATION cfg))
   /\ forall secret, basic_auth.get_secret files cfg = basic_auth.Got secret ->
                     basic_auth.newline ∉ chars secret)
  /\ (basic_auth.is_set (basic_auth.CLIENT_CREDENTIALS_SECRET_LOCATION cfg) = false ->
      basic_auth.is_set (basic_auth.CLIENT_CREDENTIALS_SECRET cfg) = true ->
      basic_auth.get_secret files cfg
      = basic_auth.Got (default "" (basic_auth.CLIENT_CREDENTIALS_SECRET cfg)))
  /\ ((exists msg, basic_auth.get_secret files cfg
                   = basic_auth.Failed (basic_auth.FlyteAuthenticationException msg))
      <-> basic_auth.is_set (basic_auth.CLIENT_CREDENTIALS_SECRET_LOCATION cfg) = false
          /\ basic_auth.is_set (basic_auth.CLIENT_CREDENTIALS_SECRET cfg) = false).
Proof.
  unfold basic_auth.get_secret.
  destruct (basic_auth.is_set (basic_auth.CLIENT_CREDENTIALS_SECRET_LOCATION cfg)) eqn:Hloc.
  - split; [|split].
    + intros _. split; [reflexivity|]. intros secret. unfold basic_auth.get_file_contents.
      destruct (files !! default "" (basic_auth.CLIENT_CREDENTIALS_SECRET_LOCATION cfg));
        [|discriminate].
      intros Heq. injection Heq as <-. apply remove_newlines_clean.
    + discriminate.
    + split.
      * intros [msg Hfail]. unfold basic_auth.get_file_contents in Hfail.
        destruct (files !! default "" (basic_auth.CLIENT_CREDENTIALS_SECRET_LOCATION cfg));
          discriminate.
      * intros [Hfalse _]. discriminate.
  - destruct (basic_auth.is_set (basic_auth.CLIENT_CREDENTIALS_SECRET cfg)) eqn:Hsec.
    + split; [discriminate|]. split; [reflexivity|]. split.
      * intros [msg Hfail]. discriminate.
      * intros [_ Hfalse]. discriminate.
    + split; [discriminate|]. split; [discriminate|]. split.
      * intros _. split; reflexivity.
      * intros _. eexists. reflexivity.
Qed.

Lemma X20_get_secret_precedence_witness :
  basic_auth.get_secret {["/etc/secret" := "s3cret"]}
    (basic_auth.mkCredentials (Some "/etc/secret") (Some "from-env") "FLYTE_SECRET")
  = basic_auth.Got "s3cret"
  /\ basic_auth.get_secret ∅
       (basic_auth.mkCredentials (Some "") (Some "from-env") "FLYTE_SECRET")
     = basic_auth.Got "from-env".
Proof.
  destruct (X20_get_secret_precedence {["/etc/secret" := "s3cret"]}
              (basic_auth.mkCredentials (Some "/etc/secret") (Some "from-env")
                 "FLYTE_SECRET")) as (Hfile & _ & _).
  destruct (Hfile eq_refl) as [-> _].
  destruct (X20_get_secret_precedence ∅
              (basic_auth.mkCredentials (Some "") (Some "from-env") "FLYTE_SECRET"))
    as (_ & Henv & _).
  rewrite (Henv eq_refl eq_refl).
  split; reflexivity.
Defined.

Lemma append_assoc3 (a b c : string) : (a +:+ b) +:+ c = a +:+ (b +:+ c).
Proof.
  induction a as [|x a IH]; [reflexivity|].
  change (String x ((a +:+ b) +:+ c) = String x (a +:+ (b +:+ c))).
  rewrite IH. reflexivity.
Qed.

Lemma append_inv_head (a x y : string) : a +:+ x = a +:+ y -> x = y.
Proof.
  induction a as [|c a IH]; intros Heq; [exact Heq|].
  change (String c (a +:+ x) = String c (a +:+ y)) in Heq.
  injection Heq as Heq. apply IH, Heq.
Qed.

(** A text with no colon before its first colon splits in one way. *)
Lemma join_colon_inj (id1 id2 secret1 secret2 : string) :
  basic_auth.colon ∉ chars id1 -> basic_auth.colon ∉ chars id2 ->
  id1 +:+ ":" +:+ secret1 = id2 +:+ ":" +:+ secret2 ->
  id1 = id2 /\ secret1 = secret2.
Proof.
  revert id2. induction id1 as [|c id1 IH]; intros [|c' id2] Hc1 Hc2 Heq.
  - change (String basic_auth.colon secret1 = String basic_auth.colon secret2) in Heq.
    injection Heq as ->. split; reflexivity.
  - change (String basic_auth.colon secret1 = String c' (id2 +:+ ":" +:+ secret2)) in Heq.
    injection Heq as <- _. exfalso. apply Hc2. apply list_elem_of_here.
  - change (String c (id1 +:+ ":" +:+ secret1) = String basic_auth.colon secret2) in Heq.
    injection Heq as -> _. exfalso. apply Hc1. apply list_elem_of_here.
  - change (String c (id1 +:+ ":" +:+ secret1) = String c' (id2 +:+ ":" +:+ secret2)) in Heq.
    injection Heq as -> Heq.
    change (chars (String c' id1)) with (c' :: chars id1) in Hc1.
    change (chars (String c' id2)) with (c' :: chars id2) in Hc2.
    apply not_elem_of_cons in Hc1 as [_ Hc1]. apply not_elem_of_cons in Hc2 as [_ Hc2].
    destruct (IH id2 Hc1 Hc2 Heq) as [-> ->]. split; reflexivity.
Qed.

(** X21: the header does not tell the end of the client id when the id holds
    a colon: the id [a:b] with the secret [c] and the id [a] with the secret
    [b:c] get the same header.  With a one-to-one [b64encode], ids that hold
    no colon get the same header only with the same id and secret. *)
Theorem X21_basic_header (b64encode : string -> string) (a b c : string)
    (id1 id2 secret1 secret2 : string) :
  basic_auth.get_basic_authorization_header b64encode (a +:+ ":" +:+ b) c
  = basic_auth.get_basic_authorization_header b64encode a (b +:+ ":" +:+ c)
  /\ ((forall x y, b64encode x = b64encode y -> x = y) ->
      basic_auth.colon ∉ chars id1 -> basic_auth.colon ∉ chars id2 ->
      basic_auth.get_basic_authorization_header b64encode id1 secret1
      = basic_auth.get_basic_authorization_header b64encode id2 secret2 ->
      id1 = id2 /\ secret1 = secret2).
Proof.
  unfold basic_auth.get_basic_authorization_header. split.
  - rewrite !append_assoc3. reflexivity.
  - intros Hinj Hc1 Hc2 Heq. apply append_inv_head in Heq.
    apply Hinj in Heq. apply join_colon_inj; assumption.
Qed.

Lemma X21_basic_header_witness :
  basic_auth.get_basic_authorization_header (fun s => s) "a:b" "c"
  = basic_auth.get_basic_authorization_header (fun s => s) "a" "b:c"
  /\ (basic_auth.get_basic_authorization_header (fun s => s) "id" "x:y"
      = basic_auth.get_basic_authorization_header (fun s => s) "id" "x:y" ->
      "id" = "id" /\ "x:y" = "x:y").
Proof.
  destruct (X21_basic_header (fun s => s) "a" "b" "c" "id" "id" "x:y" "x:y")
    as [Hsame Hinj].
  split; [exact Hsame|].
  apply Hinj.
  - intros x y Heq. exact Heq.
  - apply (bool_decide_unpack _). vm_compute. exact I.
  - apply (bool_decide_unpack _). vm_compute. exact I.
Defined.

(** ** The fetch command *)

Section FetchClaims.
Variable remote_get : string -> fetch.Data.
Variable literal_string_repr : Literal -> PyObj.
Variable literal_map_string_repr : dict Literal -> PyObj.

(** X8: [fetch] gets data only for a literal and a download path that is
    set, from the uri of the blob of its scalar and to that path.  For a
    scalar that holds a structured dataset with a uri and no blob, the
    download reads [uri] on the blob that is [None]: nothing is got and the
    command ends in [AttributeError]. *)
Theorem X8_fetch_download (flyte_data_uri : string) (download : option string)
    (remote_path : PyObj) (local_path : string)
    (scalar dataset uri : PyObj) (l : Literal) :
  (fetch.GetData remote_path local_path
   ∈ (fetch.fetch remote_get literal_string_repr literal_map_string_repr
        flyte_data_uri download).1 ->
   download = Some local_path
   /\ local_path <> ""
   /\ exists l scalar blob,
        remote_get flyte_data_uri = fetch.OfLiteral l
        /\ Literal_scalar l = Some scalar
        /\ fetch.getattr scalar "blob" = fetch.Value blob
        /\ fetch.getattr blob "uri" = fetch.Value remote_path)
  /\ (remote_get flyte_data_uri = fetch.OfLiteral l ->
      Literal_scalar l = Some scalar ->
      fetch.getattr scalar "blob" = fetch.Value PyNone ->
      fetch.getattr scalar "structured_dataset" = fetch.Value dataset ->
      fetch.truth dataset = true ->
      fetch.getattr dataset "uri" = fetch.Value uri ->
      fetch.truth uri = true ->
      local_path <> "" ->
      fetch.fetch remote_get literal_string_repr literal_map_string_repr
        flyte_data_uri (Some local_path)
      = ([fetch.Secho ("Fetching data from " +:+ flyte_data_uri +:+ "...");
          fetch.Print (literal_string_repr l)],
         fetch.AttributeError "NoneType" "uri")).
Proof.
  split.
  - unfold fetch.fetch.
    destruct (remote_get flyte_data_uri) as [l0|literals|o] eqn:Hdata.
    + destruct download as [[|c path]|]; cbn [fetch.truth_of_text].
      * intros Hin. cbn in Hin.
        repeat (apply elem_of_cons in Hin as [Hin|Hin]; [discriminate Hin|]).
        inversion Hin.
      * cbn [default from_option id]. unfold fetch.download_literal.
        destruct (Literal_scalar l0) as [scalar0|] eqn:Hscalar; cbn [default from_option id].
        -- destruct (fetch.getattr scalar0 "blob") as [blob|o a] eqn:Hblob.
           ++ set (found :=
                     if fetch.truth blob then fetch.getattr blob "uri"
                     else match fetch.getattr scalar0 "structured_dataset" with
                          | fetch.NoAttribute o a => fetch.NoAttribute o a
                          | fetch.Value sd =>
                              if fetch.truth sd then fetch.getattr sd "uri"
                              else fetch.Value PyNone
                          end).
              destruct found as [u|o a].
              ** destruct (fetch.truth u).
                 --- destruct (fetch.getattr blob "uri") as [blob_uri|o a] eqn:Huri.
                     +++ intros Hin. cbn in Hin.
                         repeat (apply elem_of_cons in Hin as [Hin|Hin];
                                 [try discriminate Hin|]).
                         *** injection Hin as -> ->.
                             split; [reflexivity|]. split; [discriminate|].
                             exists l0, scalar0, blob. repeat split; assumption.
                         *** inversion Hin.
                     +++ intros Hin. cbn in Hin.
                         repeat (apply elem_of_cons in Hin as [Hin|Hin];
                                 [discriminate Hin|]).
                         inversion Hin.
                 --- intros Hin. cbn in Hin.
                     repeat (apply elem_of_cons in Hin as [Hin|Hin]; [discriminate Hin|]).
                     inversion Hin.
              ** intros Hin. cbn in Hin.
                 repeat (apply elem_of_cons in Hin as [Hin|Hin]; [discriminate Hin|]).
                 inversion Hin.
           ++ intros Hin. cbn in Hin.
              repeat (apply elem_of_cons in Hin as [Hin|Hin]; [discriminate Hin|]).
              inversion Hin.
        -- intros Hin. cbn in Hin.
           repeat (apply elem_of_cons in Hin as [Hin|Hin]; [discriminate Hin|]).
           inversion Hin.
      * intros Hin. cbn in Hin.
        repeat (apply elem_of_cons in Hin as [Hin|Hin]; [discriminate Hin|]).
        inversion Hin.
    + intros Hin. cbn in Hin.
      repeat (apply elem_of_cons in Hin as [Hin|Hin]; [discriminate Hin|]).
      inversion Hin.
    + intros Hin. cbn in Hin.
      repeat (apply elem_of_cons in Hin as [Hin|Hin]; [discriminate Hin|]).
      inversion Hin.
  - intros Hdata Hscalar Hblob Hsd Htruth Huri Hutruth Hpath.
    unfold fetch.fetch. rewrite Hdata.
    destruct local_path as [|c path]; [contradiction|].
    cbn [fetch.truth_of_text default from_option id].
    unfold fetch.download_literal. rewrite Hscalar. cbn [default from_option id].
    rewrite Hblob. cbn [fetch.truth]. rewrite Hsd, Htruth, Huri, Hutruth.
    reflexivity.
Qed.
End FetchClaims.

Lemma X8_fetch_download_witness :
  fetch.fetch (fun _ => fetch.OfLiteral (dataset_literal "s3://bucket/table"))
    (fun _ => PyStr "literal") (fun _ => PyStr "map")
    "flyte://data" (Some "/tmp/out")
  = ([fetch.Secho "Fetching data from flyte://data..."; fetch.Print (PyStr "literal")],
     fetch.AttributeError "NoneType" "uri")
  /\ fetch.fetch (fun _ => fetch.OfLiteral (blob_literal "s3://bucket/file"))
       (fun _ => PyStr "literal") (fun _ => PyStr "map")
       "flyte://data" (Some "/tmp/out")
     = ([fetch.Secho "Fetching data from flyte://data..."; fetch.Print (PyStr "literal");
         fetch.GetData (PyStr "s3://bucket/file") "/tmp/out"],
        fetch.Done).
Proof.
  split; [|reflexivity].
  destruct (X8_fetch_download
              (fun _ => fetch.OfLiteral (dataset_literal "s3://bucket/table"))
              (fun _ => PyStr "literal") (fun _ => PyStr "map")
              "flyte://data" None PyNone "/tmp/out"
              (PyObject "Scalar"
                 [("_blob", PyNone);
                  ("_structured_dataset",
                   PyObject "StructuredDataset" [("_uri", PyStr "s3://bucket/table")])])
              (PyObject "StructuredDataset" [("_uri", PyStr "s3://bucket/table")])
              (PyStr "s3://bucket/table")
              (dataset_literal "s3://bucket/table")) as [_ Hraise].
  apply Hraise; try reflexivity. discriminate.
Defined.
